(** * Expiry-alert notification dispatch: a shallow embedding and its properties

    The program is a small Python service that fans one expiry alert out to
    WhatsApp, Telegram and Viber.  The development follows the layout of the
    source: a model of the pieces of the Python runtime the code relies on
    (exceptions and [try]/[except], truthiness, [str.format], [strftime]),
    then [notification_core.py], [messages/], and the three senders.

    Effects are explicit.  A Python function that may raise and that acts on
    the outside world is a function from a state to an [Outcome] and a new
    state; [try]/[except] is a combinator over such functions. *)

From Stdlib Require Import String Ascii List Bool Arith NArith Lia DecimalString.
Import ListNotations.
Open Scope string_scope.

(* ================================================================== *)
(** * Part I.  Definitions *)
(* ================================================================== *)

(** ** Python runtime *)

Module Py.

(** Exception classes of [requests.exceptions].  All of them derive from
    [RequestException]; [JSONDecodeError] is what [Response.json()] raises
    on a body that does not decode (requests 2.27 and later). *)
Inductive RequestsError : Type :=
| HTTPError
| ConnectionError
| ConnectTimeout
| ReadTimeout
| TooManyRedirects
| InvalidURL
| JSONDecodeError
| OtherRequestsError (name : string).

(** Exception classes.  An exception of the model is an instance of
    Python's [Exception]; the system-exiting classes that derive from
    [BaseException] only (KeyboardInterrupt, SystemExit) are signals to the
    interpreter and are not modelled. *)
Inductive ExcClass : Type :=
| IndexError
| KeyError
| ValueError
| TypeError
| AttributeError
| RequestException (k : RequestsError)
| OtherException (name : string).

(** An exception instance: its class and the text [str(e)] gives. *)
Record PyExc : Type := mkExc { exc_class : ExcClass; exc_str : string }.

(** The classes named by the [except] clauses of the program. *)
Inductive ExceptClause : Type :=
| except_Exception
| except_IndexError
| except_RequestException.

(** [isinstance(e, cls)] for the class an [except] clause names. *)
Definition isinstance (e : PyExc) (cls : ExceptClause) : bool :=
  match cls, exc_class e with
  | except_Exception, _ => true
  | except_IndexError, IndexError => true
  | except_RequestException, RequestException _ => true
  | _, _ => false
  end.

(** What a call does: return a value or raise. *)
Inductive Outcome (A : Type) : Type :=
| Returned (a : A)
| Raised (e : PyExc).
Arguments Returned {A} a.
Arguments Raised {A} e.

(** A computation over a state [S]. *)
Definition M (S A : Type) : Type := S -> Outcome A * S.

Definition ret {S A} (a : A) : M S A := fun s => (Returned a, s).

Definition bind {S A B} (m : M S A) (k : A -> M S B) : M S B :=
  fun s =>
    match m s with
    | (Returned a, s') => k a s'
    | (Raised e, s') => (Raised e, s')
    end.

Definition raise {S A} (e : PyExc) : M S A := fun s => (Raised e, s).

(** The first [except] clause whose class the exception is an instance of. *)
Fixpoint find_handler {S A} (handlers : list (ExceptClause * (PyExc -> M S A)))
         (e : PyExc) : option (PyExc -> M S A) :=
  match handlers with
  | [] => None
  | (cls, h) :: rest => if isinstance e cls then Some h else find_handler rest e
  end.

(** [try: body  except C1 as e: h1  except C2 as e: h2 ...].  An exception no
    clause matches propagates. *)
Definition try_except {S A} (body : M S A)
           (handlers : list (ExceptClause * (PyExc -> M S A))) : M S A :=
  fun s =>
    match body s with
    | (Returned a, s') => (Returned a, s')
    | (Raised e, s') =>
        match find_handler handlers e with
        | Some h => h e s'
        | None => (Raised e, s')
        end
    end.

(** Truthiness of an [Optional[str]]: [None] and [""] are falsy. *)
Definition truthy (o : option string) : bool :=
  match o with
  | None => false
  | Some s => negb (String.eqb s "")
  end.

(** How an f-string renders an [Optional[str]]. *)
Definition fstr (o : option string) : string :=
  match o with
  | None => "None"
  | Some s => s
  end.

(** Where [print] writes.  Each state a computation runs over says how it
    records a printed line. *)
Class Stdout (S : Type) : Type := emit : string -> S -> S.

Definition print {S} `{Stdout S} (line : string) : M S unit :=
  fun s => (Returned tt, emit line s).

(** A result computed without touching the state. *)
Definition lift {S A} (o : Outcome A) : M S A := fun s => (o, s).

(** The frame of a running function: the state it shares with the rest of
    the program and its own local variables. *)
Record Frame (S L : Type) : Type := mkFrame { outer : S; locals : L }.
Arguments mkFrame {S L} outer locals.
Arguments outer {S L} f.
Arguments locals {S L} f.

#[export] Instance Frame_Stdout {S L} `{Stdout S} : Stdout (Frame S L) :=
  fun line f => mkFrame (emit line (outer f)) (locals f).

(** Calling a function that knows nothing of the caller's locals. *)
Definition call {S L A} (m : M S A) : M (Frame S L) A :=
  fun f => let (o, s') := m (outer f) in (o, mkFrame s' (locals f)).

Definition get_locals {S L} : M (Frame S L) L :=
  fun f => (Returned (locals f), f).

Definition set_locals {S L} (l : L) : M (Frame S L) unit :=
  fun f => (Returned tt, mkFrame (outer f) l).

(** A function body run in a fresh frame. *)
Definition with_locals {S L A} (init : L) (body : M (Frame S L) A) : M S A :=
  fun s => let (o, f) := body (mkFrame s init) in (o, outer f).

(** Python data as the program builds it for [requests]: [None], strings,
    lists and dicts (a dict literal keeps the order it is written in). *)
#[local] Unset Elimination Schemes.
Inductive PyVal : Type :=
| PyNone
| PyStr (s : string)
| PyList (items : list PyVal)
| PyDict (members : list (string * PyVal)).
#[local] Set Elimination Schemes.

Definition of_optional (o : option string) : PyVal :=
  match o with
  | None => PyNone
  | Some s => PyStr s
  end.

(** [d.get(key)] on a dict with string keys. *)
Fixpoint dict_get {V} (d : list (string * V)) (key : string) : option V :=
  match d with
  | [] => None
  | (k, v) :: rest => if String.eqb k key then Some v else dict_get rest key
  end.

(** [d.get(key, default)] *)
Definition dict_get_default {V} (d : list (string * V)) (key : string) (default : V) : V :=
  match dict_get d key with
  | Some v => v
  | None => default
  end.

(** *** [repr] of a string

    [repr(s)], which is also [str(KeyError(s))]: the text between single
    quotes, or between double quotes when it has a single quote and no double
    one; the quote in use and the backslash escaped, control characters
    written as [\t], [\n], [\r] or [\xNN].  Bytes from 128 up, the UTF-8 of
    characters outside ASCII, are copied as they are, which is what Python
    does for the printable ones. *)

Definition backslash : ascii := ascii_of_nat 92.
Definition double_quote : ascii := ascii_of_nat 34.

Fixpoint occurs (c : ascii) (s : string) : bool :=
  match s with
  | EmptyString => false
  | String c' rest => Ascii.eqb c c' || occurs c rest
  end.

Definition hex_digit (n : nat) : ascii :=
  if Nat.ltb n 10 then ascii_of_nat (48 + n) else ascii_of_nat (87 + n).

Definition repr_char (quote c : ascii) : string :=
  let n := nat_of_ascii c in
  if Ascii.eqb c quote || Ascii.eqb c backslash then
    String backslash (String c EmptyString)
  else if Nat.eqb n 9 then String backslash "t"
  else if Nat.eqb n 10 then String backslash "n"
  else if Nat.eqb n 13 then String backslash "r"
  else if Nat.ltb n 32 || Nat.eqb n 127 then
    String backslash
           (String "x" (String (hex_digit (n / 16))
                               (String (hex_digit (n mod 16)) EmptyString)))
  else String c EmptyString.

Fixpoint repr_chars (quote : ascii) (s : string) : string :=
  match s with
  | EmptyString => EmptyString
  | String c rest => repr_char quote c ++ repr_chars quote rest
  end.

Definition repr (s : string) : string :=
  let quote :=
    if occurs "'" s && negb (occurs double_quote s) then double_quote else "'"%char in
  String quote (repr_chars quote s ++ String quote EmptyString).

(** [d[key]] *)
Definition dict_getitem {S V} (d : list (string * V)) (key : string) : M S V :=
  match dict_get d key with
  | Some v => ret v
  | None => raise (mkExc KeyError (repr key))
  end.

(** [str(n)] for a non-negative integer. *)
Definition decimal (n : nat) : string := NilEmpty.string_of_uint (Nat.to_uint n).

(** *** [datetime.date] and [strftime] *)

(** A calendar date: no time component. *)
Record date : Type := mkDate { year : nat; month : nat; day : nat }.


Definition digit (n : nat) : ascii := ascii_of_nat (48 + n mod 10).

(** The last [width] decimal digits of [n]: [n] padded with zeros when it
    has fewer, which is how [%d] and [%m] print the day and the month of a
    date (two digits each). *)
Fixpoint zero_padded (width n : nat) : string :=
  match width with
  | 0 => EmptyString
  | S w => zero_padded w (n / 10) ++ String (digit n) EmptyString
  end.

(** The number of decimal digits of the year of a date (at most 9999). *)
Definition year_digits (y : nat) : nat :=
  if Nat.ltb y 10 then 1
  else if Nat.ltb y 100 then 2
  else if Nat.ltb y 1000 then 3
  else 4.

(** One directive of a [strftime] format.  [%Y] is the year as the C library
    writes it, a plain decimal number: CPython on glibc does not pad it, so a
    year below 1000 comes out with fewer than four digits. *)
Definition directive (c : ascii) (d : date) : string :=
  match c with
  | "d"%char => zero_padded 2 (day d)
  | "m"%char => zero_padded 2 (month d)
  | "Y"%char => zero_padded (year_digits (year d)) (year d)
  | "%"%char => "%"
  | _ => String "%" (String c EmptyString)
  end.

(** [d.strftime(fmt)] for formats built from [%d], [%m], [%Y], [%%] and
    literal text. *)
Fixpoint strftime (fmt : string) (d : date) : string :=
  match fmt with
  | EmptyString => EmptyString
  | String "%" (String c rest) => directive c d ++ strftime rest d
  | String c rest => String c (strftime rest d)
  end.

(** *** [str.format]

    The scanner of CPython's [str.format] for positional arguments that are
    strings: literal text, the escapes [{{] and [}}], automatically numbered
    fields [{}] and indexed fields [{N}].  A field that asks for more (an
    attribute or an item of the argument, a conversion, a format
    specification, a name with a character outside ASCII) is handed, with
    the rest of the template, to [extended], which stands for what Python
    does from there on; nothing is assumed about it. *)

(** CPython's [AutoNumber]: whether fields are numbered automatically or by
    hand, and the next automatic number. *)
Inductive AutoNumber : Type :=
| ANS_INIT
| ANS_AUTO (an_field_number : N)
| ANS_MANUAL.

Inductive Scan : Type :=
| in_text                  (* copying literal text *)
| after_open               (* just read an opening brace *)
| after_close              (* just read a closing brace *)
| in_field (name : string) (* inside a field, [name] read so far *).

(** [extended name c rest args an]: the field name read so far, the
    character that asks for more, the template after it, the arguments and
    the numbering state; the result is what is appended to the output, or
    the exception raised. *)
Definition ExtendedField : Type :=
  string -> ascii -> string -> list string -> AutoNumber -> Outcome string.

Definition is_digit (c : ascii) : bool :=
  Nat.leb 48 (nat_of_ascii c) && Nat.leb (nat_of_ascii c) 57.

Fixpoint all_digits (s : string) : bool :=
  match s with
  | EmptyString => true
  | String c rest => is_digit c && all_digits rest
  end.


(** The largest [Py_ssize_t], on a 64-bit build. *)
Definition PY_SSIZE_T_MAX : N := 9223372036854775807%N.

(** CPython's [get_integer] on a string of decimal digits: the number, or
    [None] where the C function sets [ValueError] and returns -1 because the
    next digit would take the accumulator past [PY_SSIZE_T_MAX]. *)
Fixpoint get_integer (accumulator : N) (s : string) : option N :=
  match s with
  | EmptyString => Some accumulator
  | String c rest =>
      let digitval := N.of_nat (nat_of_ascii c - 48) in
      if N.ltb ((PY_SSIZE_T_MAX - digitval) / 10) accumulator then None
      else get_integer (accumulator * 10 + digitval) rest
  end.

(** The characters of a field that ask for more than a number. *)
Definition asks_more (c : ascii) : bool :=
  match c with
  | "."%char | "["%char | "!"%char | ":"%char => true
  | _ => Nat.leb 128 (nat_of_ascii c)
  end.

Definition ValueError_ (msg : string) : PyExc := mkExc ValueError msg.

(** The item of a tuple at a non-negative index, if there is one. *)
Fixpoint item (args : list string) (index : N) : option string :=
  match args with
  | [] => None
  | v :: rest => if N.eqb index 0 then Some v else item rest (N.pred index)
  end.

(** [args[index]] *)
Definition positional (index : N) (args : list string) : Outcome string :=
  match item args index with
  | Some v => Returned v
  | None =>
      Raised (mkExc IndexError
                    ("Replacement index " ++ NilEmpty.string_of_uint (N.to_uint index)
                     ++ " out of range for positional args tuple"))
  end.

Definition with_state {A B} (o : Outcome A) (b : B) : Outcome (A * B) :=
  match o with
  | Returned a => Returned (a, b)
  | Raised e => Raised e
  end.

(** The argument a complete field name selects, and the numbering state
    after it.  A name of digits is read as a number before the numbering
    state is looked at; any other name is a keyword, and [format] is called
    with no keyword argument. *)
Definition field_value (name : string) (an : AutoNumber) (args : list string)
  : Outcome (string * AutoNumber) :=
  match name with
  | EmptyString =>
      match an with
      | ANS_INIT => with_state (positional 0 args) (ANS_AUTO 1)
      | ANS_AUTO n => with_state (positional n args) (ANS_AUTO (N.succ n))
      | ANS_MANUAL =>
          Raised (ValueError_ "cannot switch from manual field specification to automatic field numbering")
      end
  | _ =>
      if all_digits name then
        match get_integer 0 name with
        | None => Raised (ValueError_ "Too many decimal digits in format string")
        | Some index =>
            match an with
            | ANS_AUTO _ =>
                Raised (ValueError_ "cannot switch from automatic field numbering to manual field specification")
            | _ => with_state (positional index args) ANS_MANUAL
            end
        end
      else Raised (mkExc KeyError (repr name))
  end.

(** [s] put in front of what the rest of the template produces. *)
Definition prepend (s : string) (o : Outcome string) : Outcome string :=
  match o with
  | Returned t => Returned (s ++ t)
  | Raised e => Raised e
  end.

Section Format.

Variable extended : ExtendedField.

Fixpoint format_from (st : Scan) (an : AutoNumber) (template : string)
         (args : list string) {struct template} : Outcome string :=
  match template with
  | EmptyString =>
      match st with
      | in_text => Returned EmptyString
      | after_open => Raised (ValueError_ "Single '{' encountered in format string")
      | after_close => Raised (ValueError_ "Single '}' encountered in format string")
      | in_field _ => Raised (ValueError_ "expected '}' before end of string")
      end
  | String c rest =>
      let field name :=
        if Ascii.eqb c "}" then
          match field_value name an args with
          | Returned (v, an') => prepend v (format_from in_text an' rest args)
          | Raised e => Raised e
          end
        else if Ascii.eqb c "{" then
          Raised (ValueError_ "unexpected '{' in field name")
        else if asks_more c then extended name c rest args an
        else format_from (in_field (name ++ String c EmptyString)) an rest args
      in
      match st with
      | in_text =>
          if Ascii.eqb c "{" then format_from after_open an rest args
          else if Ascii.eqb c "}" then format_from after_close an rest args
          else prepend (String c EmptyString) (format_from in_text an rest args)
      | after_open =>
          if Ascii.eqb c "{" then prepend "{" (format_from in_text an rest args)
          else field EmptyString
      | after_close =>
          if Ascii.eqb c "}" then prepend "}" (format_from in_text an rest args)
          else Raised (ValueError_ "Single '}' encountered in format string")
      | in_field name => field name
      end
  end.

(** [template.format( *args )] *)
Definition format (template : string) (args : list string) : Outcome string :=
  format_from in_text ANS_INIT template args.

End Format.

End Py.

Import Py.

Declare Scope py_scope.
Delimit Scope py_scope with py.
Notation "x <- m ;; k" := (bind m (fun x => k))
  (at level 61, m at next level, right associativity) : py_scope.
Notation "m ;; k" := (bind m (fun _ => k))
  (at level 61, right associativity) : py_scope.
Open Scope py_scope.

(** ** notification_core.py *)

Inductive NotificationChannel : Type :=
| EMAIL
| SMS
| WHATSAPP
| TELEGRAM
| VIBER.

(** [channel.value] *)
Definition value (channel : NotificationChannel) : string :=
  match channel with
  | EMAIL => "EMAIL"
  | SMS => "SMS"
  | WHATSAPP => "WHATSAPP"
  | TELEGRAM => "TELEGRAM"
  | VIBER => "VIBER"
  end.

Definition channel_eqb (a b : NotificationChannel) : bool :=
  match a, b with
  | EMAIL, EMAIL | SMS, SMS | WHATSAPP, WHATSAPP
  | TELEGRAM, TELEGRAM | VIBER, VIBER => true
  | _, _ => false
  end.

(** The attributes the service and the senders read from a request. *)
Record NotificationRequest : Type := mkRequest {
  recipient_email : option string;
  recipient_phone_number : option string;
  telegram_chat_id : option string;
  viber_user_id : option string;
  message_subject : option string;
  message_body : option string;
  expiry_type : string;
  expiry_date : option date;
  action_steps : string;
  channels : list NotificationChannel;
  locale : string
}.

(** What the service does, in order: the lines it prints and the calls of
    [sender.send] it makes, each with what the call did. *)
Inductive Event : Type :=
| Printed (line : string)
| Invoked (channel : NotificationChannel) (result : Outcome bool).

(** The sender calls recorded in a trace, oldest first. *)
Fixpoint invocations (tr : list Event) : list (NotificationChannel * Outcome bool) :=
  match tr with
  | [] => []
  | Invoked channel o :: rest => (channel, o) :: invocations rest
  | Printed _ :: rest => invocations rest
  end.

Definition succeeded (o : Outcome bool) : bool :=
  match o with
  | Returned true => true
  | _ => false
  end.

(** How many times [ch] occurs in a list of channels. *)
Definition occurrences (ch : NotificationChannel) (l : list NotificationChannel) : nat :=
  length (filter (channel_eqb ch) l).

(** The lines the service prints around a call. *)
Definition attempt_line (channel : NotificationChannel) : string :=
  "Attempting to send notification via " ++ value channel.

Definition outcome_line (channel : NotificationChannel) (o : Outcome bool) : string :=
  match o with
  | Returned true => "Successfully sent notification via " ++ value channel
  | Returned false => "Failed to send notification via " ++ value channel
  | Raised e => "Error sending notification via " ++ value channel ++ ": " ++ exc_str e
  end.

Definition skip_line (channel : NotificationChannel) : string :=
  "No sender found for channel: " ++ value channel.

Section Service.

(** Whatever the senders act upon: the network, a mock's call record. *)
Variable W : Type.

(** [NotificationSender.send]: the abstract method every sender implements. *)
Definition NotificationSender : Type := NotificationRequest -> M W bool.

(** [NotificationService]: [self.senders] is a dict keyed by channel;
    [senders self channel] is [self.senders.get(channel)]. *)
Record NotificationService : Type := mkService {
  senders : NotificationChannel -> option NotificationSender
}.

Record Run : Type := mkRun { world : W; trace : list Event }.

#[export] Instance Run_Stdout : Stdout Run :=
  fun line r => mkRun (world r) (trace r ++ [Printed line]).

(** [sender.send(request)] *)
Definition invoke (channel : NotificationChannel) (sender : NotificationSender)
           (request : NotificationRequest) : M Run bool :=
  fun r =>
    let (o, w') := sender request (world r) in
    (o, mkRun w' (trace r ++ [Invoked channel o])).

(** The body of [for channel in request.channels], with the loop variable
    [overall_success] threaded through the iterations. *)
Fixpoint for_channel_in (self : NotificationService) (request : NotificationRequest)
         (chs : list NotificationChannel) (overall_success : bool) : M Run bool :=
  match chs with
  | [] => ret overall_success
  | channel :: rest =>
      overall_success <-
        match senders self channel with
        | Some sender =>
            print ("Attempting to send notification via " ++ value channel) ;;
            try_except
              (sent <- invoke channel sender request ;;
               if sent : bool then
                 print ("Successfully sent notification via " ++ value channel) ;;
                 ret true
               else
                 print ("Failed to send notification via " ++ value channel) ;;
                 ret overall_success)
              [(except_Exception,
                fun e =>
                  print ("Error sending notification via " ++ value channel
                         ++ ": " ++ exc_str e) ;;
                  ret overall_success)]
        | None =>
            print ("No sender found for channel: " ++ value channel) ;;
            ret overall_success
        end ;;
      for_channel_in self request rest overall_success
  end.

Definition send_notification (self : NotificationService)
           (request : NotificationRequest) : M Run bool :=
  match channels request with
  | [] =>
      print "No notification channels specified in the request." ;;
      ret false
  | _ :: _ => for_channel_in self request (channels request) false
  end.

(** *** Vocabulary for the properties of the service *)

Definition registered (self : NotificationService) (channel : NotificationChannel) : bool :=
  match senders self channel with
  | Some _ => true
  | None => false
  end.

(** Running, one after the other, the senders registered for [chs]: what
    each call did and the world they leave. *)
Fixpoint attempts (self : NotificationService) (request : NotificationRequest)
         (chs : list NotificationChannel) (w : W)
  : list (NotificationChannel * Outcome bool) * W :=
  match chs with
  | [] => ([], w)
  | channel :: rest =>
      match senders self channel with
      | Some sender =>
          let (o, w') := sender request w in
          let (l, w'') := attempts self request rest w' in
          ((channel, o) :: l, w'')
      | None => attempts self request rest w
      end
  end.

End Service.

Arguments mkRun {W} world trace.
Arguments world {W} r.
Arguments trace {W} r.
Arguments mkService {W} senders.
Arguments senders {W} n channel.
Arguments invoke {W} channel sender request.
Arguments for_channel_in {W} self request chs overall_success.
Arguments send_notification {W} self request.
Arguments registered {W} self channel.
Arguments attempts {W} self request chs w.


(** ** The dataclass [NotificationRequest]

    [@dataclass] reads the annotated fields of the class body in the order
    they are written and generates [__init__] from them.  While doing so it
    refuses a field without a default that comes after a field with one. *)

Inductive FieldDefault : Type :=
| no_default
| default_None
| default_str (s : string).

(** The class body of [NotificationRequest], field by field. *)
Definition NotificationRequest_fields : list (string * FieldDefault) :=
  [ ("recipient_email", default_None);
    ("recipient_phone_number", default_None);
    ("telegram_chat_id", default_None);
    ("viber_user_id", default_None);
    ("message_subject", default_None);
    ("message_body", default_None);
    ("expiry_type", default_str "Certificate");
    ("expiry_date", default_None);
    ("action_steps", default_str "Please renew your credential.");
    ("channels", no_default);
    ("locale", default_str "en") ].

(** The check [dataclasses] makes on the parameters of the [__init__] it
    generates: [seen_default] is set by the first field that has a default. *)
Fixpoint init_parameters (seen_default : bool) (fields : list (string * FieldDefault))
  : Outcome unit :=
  match fields with
  | [] => Returned tt
  | (name, no_default) :: rest =>
      if seen_default then
        Raised (mkExc TypeError
                      ("non-default argument '" ++ name ++ "' follows default argument"))
      else init_parameters seen_default rest
  | (_, _) :: rest => init_parameters true rest
  end.

(** Executing the decorated class statement. *)
Definition dataclass (fields : list (string * FieldDefault)) : Outcome unit :=
  init_parameters false fields.

(** The keyword arguments of a constructor call: [None] for an argument that
    is left out. *)
Record InitArgs : Type := mkInitArgs {
  arg_recipient_email : option (option string);
  arg_recipient_phone_number : option (option string);
  arg_telegram_chat_id : option (option string);
  arg_viber_user_id : option (option string);
  arg_message_subject : option (option string);
  arg_message_body : option (option string);
  arg_expiry_type : option string;
  arg_expiry_date : option (option date);
  arg_action_steps : option string;
  arg_channels : option (list NotificationChannel);
  arg_locale : option string
}.

Definition or_default {A} (supplied : option A) (default : A) : A :=
  match supplied with
  | Some a => a
  | None => default
  end.

(** The [__init__] the field list describes: every argument is stored as it
    is; one that is left out takes the default of its field; [channels] has
    none. *)
Definition generated_init (a : InitArgs) : Outcome NotificationRequest :=
  match arg_channels a with
  | None =>
      Raised (mkExc TypeError
                    "__init__() missing 1 required positional argument: 'channels'")
  | Some chs =>
      Returned
        (mkRequest (or_default (arg_recipient_email a) None)
                   (or_default (arg_recipient_phone_number a) None)
                   (or_default (arg_telegram_chat_id a) None)
                   (or_default (arg_viber_user_id a) None)
                   (or_default (arg_message_subject a) None)
                   (or_default (arg_message_body a) None)
                   (or_default (arg_expiry_type a) "Certificate")
                   (or_default (arg_expiry_date a) None)
                   (or_default (arg_action_steps a) "Please renew your credential.")
                   chs
                   (or_default (arg_locale a) "en"))
  end.

(** [NotificationRequest(...)] in the program: the class statement runs
    first (at import), the constructor call after it. *)
Definition NotificationRequest_new (a : InitArgs) : Outcome NotificationRequest :=
  match dataclass NotificationRequest_fields with
  | Returned _ => generated_init a
  | Raised e => Raised e
  end.

(** ** The outside world of the senders *)

Module requests.

(** What [Response.json()] finds in the body. *)
Inductive Body : Type :=
| decodes (shown : string)  (* valid JSON; [shown] is how the value prints *)
| undecodable (msg : string).

Record Response : Type := mkResponse {
  status_code : nat;
  reason : string;
  url : string;
  text : string;
  body : Body
}.

(** One call of [requests.post(endpoint, json=..., headers=...)]. *)
Record Call : Type := mkCall {
  endpoint : string;
  json : PyVal;
  headers : list (string * PyVal)
}.

(** What the network does with a call: a response comes back, or the
    transport fails with one of the library's exceptions. *)
Inductive Transport : Type :=
| responds (r : Response)
| fails (k : RequestsError) (msg : string).

(** The network, as far as the program can tell: what a call gets may
    depend on the calls made before it. *)
Definition Network : Type := list Call -> Call -> Transport.

(** What a call of [requests.post] does, library and network together: it
    returns a response, or an exception comes out of it.  The library's own
    exceptions derive from [RequestException]; others come out as they are
    (a header value with no latin-1 encoding ends in [UnicodeEncodeError]). *)
Definition Client : Type := list Call -> Call -> Outcome Response.

(** What the caller of [requests.post] sees of the network. *)
Definition outcome_of (t : Transport) : Outcome Response :=
  match t with
  | responds r => Returned r
  | fails k msg => Raised (mkExc (RequestException k) msg)
  end.

(** A client whose only failures are those of the network. *)
Definition of_network (n : Network) : Client :=
  fun before c => outcome_of (n before c).

End requests.

(** Standard output and the calls sent to the network, oldest first. *)
Record World : Type := mkWorld {
  stdout : list string;
  outbound : list requests.Call
}.

#[export] Instance World_Stdout : Stdout World :=
  fun line w => mkWorld (stdout w ++ [line]) (outbound w).

(** What the model leaves open: the behaviour of the network, and of
    [str.format] beyond plain fields. *)
Record Env : Type := mkEnv {
  network : requests.Network;
  extended_field : ExtendedField
}.

Module requests_api.
Import requests.

(** The type of [requests.post] as the senders call it. *)
Definition Post : Type :=
  string -> PyVal -> list (string * PyVal) -> M World Response.

(** [requests.post(endpoint, json=payload, headers=headers)] for a given
    client: the call is recorded, and the client says what comes of it. *)
Definition post_with (client : Client) : Post :=
  fun endpoint payload headers w =>
    let c := mkCall endpoint payload headers in
    (client (outbound w) c, mkWorld (stdout w) (outbound w ++ [c])).

(** [requests.post] when nothing but the network of [env] can fail. *)
Definition post (env : Env) : Post :=
  post_with (of_network (network env)).

(** [response.raise_for_status()]: [HTTPError] for a 4xx or 5xx status. *)
Definition raise_for_status {S} (response : Response) : M S unit :=
  if Nat.leb 400 (status_code response) && Nat.ltb (status_code response) 500 then
    raise (mkExc (RequestException HTTPError)
                 (decimal (status_code response) ++ " Client Error: "
                  ++ reason response ++ " for url: " ++ url response))
  else if Nat.leb 500 (status_code response) && Nat.ltb (status_code response) 600 then
    raise (mkExc (RequestException HTTPError)
                 (decimal (status_code response) ++ " Server Error: "
                  ++ reason response ++ " for url: " ++ url response))
  else ret tt.

(** [response.json()], as the f-string shows it. *)
Definition json_ {S} (response : Response) : M S string :=
  match body response with
  | decodes shown => ret shown
  | undecodable msg => raise (mkExc (RequestException JSONDecodeError) msg)
  end.

End requests_api.

(** ** config.py *)

Record Config : Type := mkConfig {
  WHATSAPP_API_URL : string;
  WHATSAPP_ACCESS_TOKEN : option string;
  WHATSAPP_FROM_PHONE_NUMBER_ID : option string;
  WHATSAPP_TEMPLATE_NAME : string;
  TELEGRAM_API_URL : string;
  TELEGRAM_BOT_TOKEN : option string;
  VIBER_API_URL : string;
  VIBER_AUTH_TOKEN : option string;
  VIBER_SENDER_NAME : string;
  VIBER_SENDER_AVATAR : string
}.

(** ** messages/ *)

Module messages.

Module en.
Definition MESSAGES : list (string * string) :=
  [ ("whatsapp.expiry.message",
     "Dear User, your {} will expire on {}. Please take the following action: {}.");
    ("telegram.expiry.message",
     "Alert: Your {} expires on {}. Action required: {}.");
    ("viber.expiry.message",
     "Important: {} expires {}. Next steps: {}.") ].
End en.

Definition _messages : list (string * list (string * string)) :=
  [ ("en", en.MESSAGES) ].

(** The default of [message_bundle.get(key, ...)]. *)
Definition missing_message (key : string) : string :=
  "Missing message for key: " ++ key.

Definition get_localized_message (env : Env) (key locale : string) (args : list string)
  : M World string :=
  fallback <- dict_getitem _messages "en" ;;
  let message_bundle := dict_get_default _messages locale fallback in
  let message_template := dict_get_default message_bundle key (missing_message key) in
  try_except
    (lift (format (extended_field env) message_template args))
    [ (except_IndexError,
       fun _ =>
         print ("Warning: Not enough arguments provided for message key '" ++ key
                ++ "' in locale '" ++ locale ++ "'. Template: '"
                ++ message_template ++ "'") ;;
         ret message_template);
      (except_Exception,
       fun e =>
         print ("Error formatting message for key '" ++ key ++ "' in locale '"
                ++ locale ++ "': " ++ exc_str e) ;;
         ret message_template) ].

End messages.

(** *** Vocabulary for the properties of [get_localized_message] *)

(** A string without braces: [str.format] has nothing to replace in it. *)
Fixpoint brace_free (s : string) : bool :=
  match s with
  | EmptyString => true
  | String c rest =>
      negb (Ascii.eqb c "{") && negb (Ascii.eqb c "}") && brace_free rest
  end.

(** The template [get_localized_message] ends up formatting for [key]. *)
Definition template_for (key : string) : string :=
  dict_get_default messages.en.MESSAGES key (messages.missing_message key).

(** The line an [except] clause of [get_localized_message] prints. *)
Definition formatting_failure_line (key locale template : string) (e : PyExc) : string :=
  if isinstance e except_IndexError then
    "Warning: Not enough arguments provided for message key '" ++ key
    ++ "' in locale '" ++ locale ++ "'. Template: '" ++ template ++ "'"
  else
    "Error formatting message for key '" ++ key ++ "' in locale '"
    ++ locale ++ "': " ++ exc_str e.

(** *** Sample inputs for the examples *)

(** A network that is down, and a Python that rejects every field beyond
    the plain ones. *)
Definition sample_env : Env :=
  mkEnv (fun _ _ => requests.fails ConnectionError "connection refused")
        (fun _ _ _ _ _ => Raised (ValueError_ "Invalid format specifier")).

(** A network that accepts every call. *)
Definition accepting_env : Env :=
  mkEnv (fun _ c =>
           requests.responds
             (requests.mkResponse 200 "OK" (requests.endpoint c) "{}" (requests.decodes "{}")))
        (fun _ _ _ _ _ => Raised (ValueError_ "Invalid format specifier")).

Definition empty_world : World := mkWorld [] [].

Definition sample_request : NotificationRequest :=
  mkRequest None (Some "+15550100") (Some "4242") (Some "viber-user-1")
            None None
            "Certificate" (Some (mkDate 2025 12 31)) "Please renew your credential."
            [TELEGRAM; VIBER] "en".

(** The same alert with no phone number. *)
Definition request_without_phone : NotificationRequest :=
  mkRequest None None (Some "4242") (Some "viber-user-1")
            None None
            "Certificate" (Some (mkDate 2025 12 31)) "Please renew your credential."
            [WHATSAPP] "en".

(** The same alert with an empty phone number. *)
Definition request_with_empty_phone : NotificationRequest :=
  mkRequest None (Some EmptyString) (Some "4242") (Some "viber-user-1")
            None None
            "Certificate" (Some (mkDate 2025 12 31)) "Please renew your credential."
            [WHATSAPP] "en".



(** The same alert for a channel that has no sender. *)
Definition request_by_email : NotificationRequest :=
  mkRequest (Some "user@example.org") None None None
            None None
            "Certificate" (Some (mkDate 2025 12 31)) "Please renew your credential."
            [EMAIL] "en".

(** The same alert with no channel at all. *)
Definition request_without_channels : NotificationRequest :=
  mkRequest None (Some "+15550100") (Some "4242") (Some "viber-user-1")
            None None
            "Certificate" (Some (mkDate 2025 12 31)) "Please renew your credential."
            [] "en".

(** A mock sender: it adds its channel to the record of calls and does what
    it is told to. *)
Definition mock (channel : NotificationChannel) (result : Outcome bool)
  : NotificationSender (list NotificationChannel) :=
  fun _ calls => (result, (calls ++ [channel])%list).

(** Telegram mocked to succeed, Viber to fail, WhatsApp to raise. *)
Definition mock_service : NotificationService (list NotificationChannel) :=
  mkService
    (fun channel =>
       match channel with
       | TELEGRAM => Some (mock TELEGRAM (Returned true))
       | VIBER => Some (mock VIBER (Returned false))
       | WHATSAPP => Some (mock WHATSAPP (Raised (mkExc (OtherException "RuntimeError") "boom")))
       | EMAIL | SMS => None
       end).

(** A network that answers every call with 404 and an HTML page. *)
Definition not_found : requests.Response :=
  requests.mkResponse 404 "Not Found" "https://api.telegram.org/botX/sendMessage"
                      "<html>not found</html>" (requests.undecodable "Expecting value").

Definition rejecting_env : Env :=
  mkEnv (fun _ _ => requests.responds not_found)
        (fun _ _ _ _ _ => Raised (ValueError_ "Invalid format specifier")).

(** WhatsApp first, then Telegram. *)
Definition request_whatsapp_then_telegram : NotificationRequest :=
  mkRequest None (Some "+15550100") (Some "4242") None
            None None
            "Certificate" (Some (mkDate 2025 12 31)) "Please renew your credential."
            [WHATSAPP; TELEGRAM] "en".

Definition sample_config : Config :=
  mkConfig "https://graph.facebook.com/v19.0" (Some "wa-token") (Some "1055") "expiry_alert_template"
           "https://api.telegram.org/bot" (Some "tg-token")
           "https://chatapi.viber.com/pa/" (Some "vb-token") "MOSIP Alerts" EmptyString.

(** ** senders/ *)

(** [request.expiry_date.strftime("%d-%m-%Y") if request.expiry_date else "N/A"]:
    the expression each of the three [send] methods evaluates. *)
Definition expiry_date_formatted (request : NotificationRequest) : string :=
  match expiry_date request with
  | Some d => strftime "%d-%m-%Y" d
  | None => "N/A"
  end.

(** The last line of each [except] clause:
    [response.text if 'response' in locals() else 'No response']. *)
Definition response_content (response : option requests.Response) : string :=
  "Response content: "
  ++ match response with
     | Some r => requests.text r
     | None => "No response"
     end.

Module WhatsAppSender.
Import requests requests_api.

Record t : Type := mk {
  api_url : string;
  access_token : option string;
  from_phone_number_id : option string;
  template_name : string
}.

Definition __init__ (config : Config) : t :=
  mk (WHATSAPP_API_URL config) (WHATSAPP_ACCESS_TOKEN config)
     (WHATSAPP_FROM_PHONE_NUMBER_ID config) (WHATSAPP_TEMPLATE_NAME config).

Definition headers (self : t) : list (string * PyVal) :=
  [ ("Authorization", PyStr ("Bearer " ++ fstr (access_token self)));
    ("Content-Type", PyStr "application/json") ].

Definition template_components (request : NotificationRequest) : PyVal :=
  PyList
    [ PyDict
        [ ("type", PyStr "body");
          ("parameters",
           PyList
             [ PyDict [ ("type", PyStr "text"); ("text", PyStr (expiry_type request)) ];
               PyDict [ ("type", PyStr "text"); ("text", PyStr (expiry_date_formatted request)) ];
               PyDict [ ("type", PyStr "text"); ("text", PyStr (action_steps request)) ] ]) ] ].

Definition payload (self : t) (request : NotificationRequest) : PyVal :=
  PyDict
    [ ("messaging_product", PyStr "whatsapp");
      ("to", of_optional (recipient_phone_number request));
      ("type", PyStr "template");
      ("template",
       PyDict
         [ ("name", PyStr (template_name self));
           ("language", PyDict [ ("code", PyStr (locale request)) ]);
           ("components", template_components request) ]) ].

Definition api_endpoint (self : t) : string :=
  api_url self ++ "/" ++ fstr (from_phone_number_id self) ++ "/messages".

Definition send_with (post : Post) (self : t) (request : NotificationRequest)
  : M World bool :=
  with_locals (None : option Response)
    (if negb (truthy (recipient_phone_number request)) then
       print "WhatsApp recipient phone number is missing." ;;
       ret false
     else if negb (truthy (access_token self)) || negb (truthy (from_phone_number_id self)) then
       print "WhatsApp API access token or phone number ID is not configured." ;;
       ret false
     else
       try_except
         (response <- call (post (api_endpoint self) (payload self request) (headers self)) ;;
          set_locals (Some response) ;;
          raise_for_status response ;;
          shown <- json_ response ;;
          print ("WhatsApp notification sent to " ++ fstr (recipient_phone_number request)
                 ++ ". Response: " ++ shown) ;;
          ret true)
         [ (except_RequestException,
            fun e =>
              print ("Failed to send WhatsApp notification to "
                     ++ fstr (recipient_phone_number request) ++ ": " ++ exc_str e) ;;
              response <- get_locals ;;
              print (response_content response) ;;
              ret false) ]).

(** [send] with the [requests.post] of [env]. *)
Definition send (env : Env) (self : t) (request : NotificationRequest) : M World bool :=
  send_with (post env) self request.

Definition get_channel_type (self : t) : NotificationChannel := WHATSAPP.

End WhatsAppSender.

Module TelegramSender.
Import requests requests_api.

Record t : Type := mk {
  api_url : string;
  bot_token : option string
}.

Definition __init__ (config : Config) : t :=
  mk (TELEGRAM_API_URL config) (TELEGRAM_BOT_TOKEN config).

Definition payload (request : NotificationRequest) (message_text : string) : PyVal :=
  PyDict
    [ ("chat_id", of_optional (telegram_chat_id request));
      ("text", PyStr message_text) ].

Definition api_endpoint (self : t) : string :=
  api_url self ++ fstr (bot_token self) ++ "/sendMessage".

Definition send_with (post : Post) (env : Env) (self : t) (request : NotificationRequest)
  : M World bool :=
  with_locals (None : option Response)
    (if negb (truthy (telegram_chat_id request)) then
       print "Telegram chat ID is missing." ;;
       ret false
     else if negb (truthy (bot_token self)) then
       print "Telegram Bot Token is not configured." ;;
       ret false
     else
       message_text <-
         call (messages.get_localized_message env "telegram.expiry.message"
                 (locale request)
                 [expiry_type request; expiry_date_formatted request; action_steps request]) ;;
       try_except
         (response <- call (post (api_endpoint self) (payload request message_text) []) ;;
          set_locals (Some response) ;;
          raise_for_status response ;;
          shown <- json_ response ;;
          print ("Telegram notification sent to chat ID " ++ fstr (telegram_chat_id request)
                 ++ ". Response: " ++ shown) ;;
          ret true)
         [ (except_RequestException,
            fun e =>
              print ("Failed to send Telegram notification to "
                     ++ fstr (telegram_chat_id request) ++ ": " ++ exc_str e) ;;
              response <- get_locals ;;
              print (response_content response) ;;
              ret false) ]).

(** [send] with the [requests.post] of [env]. *)
Definition send (env : Env) (self : t) (request : NotificationRequest) : M World bool :=
  send_with (post env) env self request.

Definition get_channel_type (self : t) : NotificationChannel := TELEGRAM.

End TelegramSender.

Module ViberSender.
Import requests requests_api.

Record t : Type := mk {
  api_url : string;
  auth_token : option string;
  sender_name : string;
  sender_avatar : string
}.

Definition __init__ (config : Config) : t :=
  mk (VIBER_API_URL config) (VIBER_AUTH_TOKEN config)
     (VIBER_SENDER_NAME config) (VIBER_SENDER_AVATAR config).

Definition headers (self : t) : list (string * PyVal) :=
  [ ("X-Viber-Auth-Token", of_optional (auth_token self));
    ("Content-Type", PyStr "application/json") ].

Definition payload (self : t) (request : NotificationRequest) (message_text : string) : PyVal :=
  PyDict
    [ ("receiver", of_optional (viber_user_id request));
      ("type", PyStr "text");
      ("text", PyStr message_text);
      ("sender",
       PyDict [ ("name", PyStr (sender_name self));
                ("avatar", PyStr (sender_avatar self)) ]) ].

Definition api_endpoint (self : t) : string :=
  api_url self ++ "send_message".

Definition send_with (post : Post) (env : Env) (self : t) (request : NotificationRequest)
  : M World bool :=
  with_locals (None : option Response)
    (if negb (truthy (viber_user_id request)) then
       print "Viber user ID is missing." ;;
       ret false
     else if negb (truthy (auth_token self)) then
       print "Viber Auth Token is not configured." ;;
       ret false
     else
       message_text <-
         call (messages.get_localized_message env "viber.expiry.message"
                 (locale request)
                 [expiry_type request; expiry_date_formatted request; action_steps request]) ;;
       try_except
         (response <- call (post (api_endpoint self) (payload self request message_text)
                             (headers self)) ;;
          set_locals (Some response) ;;
          raise_for_status response ;;
          shown <- json_ response ;;
          print ("Viber notification sent to user ID " ++ fstr (viber_user_id request)
                 ++ ". Response: " ++ shown) ;;
          ret true)
         [ (except_RequestException,
            fun e =>
              print ("Failed to send Viber notification to "
                     ++ fstr (viber_user_id request) ++ ": " ++ exc_str e) ;;
              response <- get_locals ;;
              print (response_content response) ;;
              ret false) ]).

(** [send] with the [requests.post] of [env]. *)
Definition send (env : Env) (self : t) (request : NotificationRequest) : M World bool :=
  send_with (post env) env self request.

Definition get_channel_type (self : t) : NotificationChannel := VIBER.

End ViberSender.

(** *** Vocabulary for the properties of the senders *)

(** [raise_for_status] raises on this response. *)
Definition http_error (r : requests.Response) : bool :=
  Nat.leb 400 (requests.status_code r) && Nat.ltb (requests.status_code r) 600.

(** The only way through the [try] block of a sender: a response came back,
    its status is no 4xx or 5xx, and its body decodes. *)
Definition delivered (t : requests.Transport) : bool :=
  match t with
  | requests.responds r =>
      negb (http_error r)
      && match requests.body r with
         | requests.decodes _ => true
         | requests.undecodable _ => false
         end
  | requests.fails _ _ => false
  end.

(** What a [send] that passed its guards makes of its call of
    [requests.post]: a response is judged by [delivered]; an exception that
    is a [RequestException] is caught and gives [False]; any other exception
    goes through. *)
Definition attempt_outcome (o : Outcome requests.Response) : Outcome bool :=
  match o with
  | Returned r => Returned (delivered (requests.responds r))
  | Raised e => if isinstance e except_RequestException then Returned false else Raised e
  end.

(** The calls the three senders make once their guards are passed. *)
Definition whatsapp_call (self : WhatsAppSender.t) (request : NotificationRequest)
  : requests.Call :=
  requests.mkCall (WhatsAppSender.api_endpoint self)
                  (WhatsAppSender.payload self request)
                  (WhatsAppSender.headers self).

Definition telegram_text (request : NotificationRequest) : string :=
  "Alert: Your " ++ expiry_type request ++ " expires on "
  ++ expiry_date_formatted request ++ ". Action required: " ++ action_steps request ++ ".".

Definition telegram_call (self : TelegramSender.t) (request : NotificationRequest)
  : requests.Call :=
  requests.mkCall (TelegramSender.api_endpoint self)
                  (TelegramSender.payload request (telegram_text request))
                  [].

Definition viber_text (request : NotificationRequest) : string :=
  "Important: " ++ expiry_type request ++ " expires "
  ++ expiry_date_formatted request ++ ". Next steps: " ++ action_steps request ++ ".".

Definition viber_call (self : ViberSender.t) (request : NotificationRequest)
  : requests.Call :=
  requests.mkCall (ViberSender.api_endpoint self)
                  (ViberSender.payload self request (viber_text request))
                  (ViberSender.headers self).

(** The guards of the three [send] methods. *)
Definition whatsapp_ready (self : WhatsAppSender.t) (request : NotificationRequest) : bool :=
  truthy (recipient_phone_number request)
  && truthy (WhatsAppSender.access_token self)
  && truthy (WhatsAppSender.from_phone_number_id self).

Definition telegram_ready (self : TelegramSender.t) (request : NotificationRequest) : bool :=
  truthy (telegram_chat_id request) && truthy (TelegramSender.bot_token self).

Definition viber_ready (self : ViberSender.t) (request : NotificationRequest) : bool :=
  truthy (viber_user_id request) && truthy (ViberSender.auth_token self).




(** ** app.py: the registry the service is built with

    [notification_senders] is the dict literal of app.py over the three
    module-level sender objects, whatever they are; building those objects
    (app.py calls each sender class on [app.config]) is not part of it.  The
    [requests.post] the senders call is a parameter as well. *)

Definition notification_senders (post : requests_api.Post) (env : Env)
           (whatsapp_sender : WhatsAppSender.t) (telegram_sender : TelegramSender.t)
           (viber_sender : ViberSender.t)
  : NotificationChannel -> option (NotificationSender World) :=
  fun channel =>
    match channel with
    | WHATSAPP => Some (WhatsAppSender.send_with post whatsapp_sender)
    | TELEGRAM => Some (TelegramSender.send_with post env telegram_sender)
    | VIBER => Some (ViberSender.send_with post env viber_sender)
    | EMAIL | SMS => None
    end.

(** [NotificationService(notification_senders)] *)
Definition notification_service (post : requests_api.Post) (env : Env)
           (whatsapp_sender : WhatsAppSender.t) (telegram_sender : TelegramSender.t)
           (viber_sender : ViberSender.t)
  : NotificationService World :=
  mkService (notification_senders post env whatsapp_sender telegram_sender viber_sender).

(** ** config.py: the class body of [Config]

    The class body runs once, at import, on the environment of the process
    (what [load_dotenv()] and the shell put there). *)

(** [os.getenv(name)] *)
Definition getenv (environ : list (string * string)) (name : string) : option string :=
  dict_get environ name.

(** [os.getenv(name, default)] *)
Definition getenv_default (environ : list (string * string)) (name default : string)
  : string :=
  dict_get_default environ name default.

(** The attributes the class body assigns. *)
Definition Config_attributes (environ : list (string * string)) : Config :=
  mkConfig
    (getenv_default environ "WHATSAPP_API_URL"
       "[https://graph.facebook.com/v19.0](https://graph.facebook.com/v19.0)")
    (getenv environ "WHATSAPP_ACCESS_TOKEN")
    (getenv environ "WHATSAPP_FROM_PHONE_NUMBER_ID")
    (getenv_default environ "WHATSAPP_TEMPLATE_NAME" "expiry_alert_template")
    (getenv_default environ "TELEGRAM_API_URL"
       "[https://api.telegram.org/bot](https://api.telegram.org/bot)")
    (getenv environ "TELEGRAM_BOT_TOKEN")
    (getenv_default environ "VIBER_API_URL"
       "[https://chatapi.viber.com/pa/](https://chatapi.viber.com/pa/)")
    (getenv environ "VIBER_AUTH_TOKEN")
    (getenv_default environ "VIBER_SENDER_NAME" "MOSIP Alerts")
    (getenv_default environ "VIBER_SENDER_AVATAR" EmptyString).

(** [if not TOKEN: print(line)] *)
Definition warn_if_not (token : option string) (line : string) : M World unit :=
  if negb (truthy token) then print line else ret tt.

(** The class statement: the assignments, then the three checks. *)
Definition Config_class (environ : list (string * string)) : M World Config :=
  let config := Config_attributes environ in
  warn_if_not (WHATSAPP_ACCESS_TOKEN config)
              "WARNING: WHATSAPP_ACCESS_TOKEN not set in .env" ;;
  warn_if_not (TELEGRAM_BOT_TOKEN config)
              "WARNING: TELEGRAM_BOT_TOKEN not set in .env" ;;
  warn_if_not (VIBER_AUTH_TOKEN config)
              "WARNING: VIBER_AUTH_TOKEN not set in .env" ;;
  ret config.

(** *** Vocabulary for the service of [app.py] *)

Section Registered.

Variable whatsapp_sender : WhatsAppSender.t.
Variable telegram_sender : TelegramSender.t.
Variable viber_sender : ViberSender.t.

(** Whether the sender registered for [channel] passes its guards on
    [request]; no sender is registered for EMAIL and SMS. *)
Definition channel_ready (request : NotificationRequest)
           (channel : NotificationChannel) : bool :=
  match channel with
  | WHATSAPP => whatsapp_ready whatsapp_sender request
  | TELEGRAM => telegram_ready telegram_sender request
  | VIBER => viber_ready viber_sender request
  | EMAIL | SMS => false
  end.

(** The call the sender registered for [channel] makes once its guards are
    passed. *)
Definition channel_call (request : NotificationRequest)
           (channel : NotificationChannel) : list requests.Call :=
  match channel with
  | WHATSAPP => [whatsapp_call whatsapp_sender request]
  | TELEGRAM => [telegram_call telegram_sender request]
  | VIBER => [viber_call viber_sender request]
  | EMAIL | SMS => []
  end.

(** The calls a dispatch over [chs] hands to [requests.post], oldest
    first. *)
Definition calls_for (request : NotificationRequest)
           (chs : list NotificationChannel) : list requests.Call :=
  flat_map (fun channel =>
              if channel_ready request channel
              then channel_call request channel
              else [])
           chs.

End Registered.

(** *** [requests.post] and the encoding of headers *)

(** Whether a text (UTF-8) has a latin-1 encoding: no character past U+00FF,
    that is no byte from 0xC4 up. *)
Fixpoint latin1 (s : string) : bool :=
  match s with
  | EmptyString => true
  | String c rest => Nat.ltb (nat_of_ascii c) 196 && latin1 rest
  end.

Definition latin1_value (v : PyVal) : bool :=
  match v with
  | PyStr s => latin1 s
  | _ => true
  end.

(** A client that encodes the header values as latin-1 before it sends
    anything, as [http.client] does under [requests.post]: a value that has
    no such encoding ends the call in [UnicodeEncodeError], which derives
    from [ValueError] and not from [RequestException]; [codec_error] gives
    the text of the exception, which names the character and its position.
    With encodable headers the call goes to [inner]. *)
Definition encoding_headers (codec_error : list (string * PyVal) -> string)
           (inner : requests.Client) : requests.Client :=
  fun before c =>
    if forallb (fun h => latin1_value (snd h)) (requests.headers c)
    then inner before c
    else Raised (mkExc (OtherException "UnicodeEncodeError")
                       (codec_error (requests.headers c))).

(** *** More sample inputs *)

(** The sample alert with a subject, a body and an e-mail address. *)
Definition request_with_free_text : NotificationRequest :=
  mkRequest (Some "user@example.org") (Some "+15550100") (Some "4242") (Some "viber-user-1")
            (Some "Your certificate") (Some "Call the help desk.")
            "Certificate" (Some (mkDate 2025 12 31)) "Please renew your credential."
            [WHATSAPP] "en".

(** A network that answers every call with a redirection nobody follows. *)
Definition redirecting_env : Env :=
  mkEnv (fun _ c =>
           requests.responds
             (requests.mkResponse 302 "Found" (requests.endpoint c) "{}" (requests.decodes "{}")))
        (fun _ _ _ _ _ => Raised (ValueError_ "Invalid format specifier")).

(** A network that answers 401 at the address it was called at. *)
Definition unauthorized_env : Env :=
  mkEnv (fun _ c =>
           requests.responds
             (requests.mkResponse 401 "Unauthorized" (requests.endpoint c)
                                  "{}" (requests.decodes "{}")))
        (fun _ _ _ _ _ => Raised (ValueError_ "Invalid format specifier")).

(** The service of [app.py] over senders set up from [sample_config], with
    the [requests.post] of [env]. *)
Definition sample_service (env : Env) : NotificationService World :=
  notification_service (requests_api.post env) env
                       (WhatsAppSender.__init__ sample_config)
                       (TelegramSender.__init__ sample_config)
                       (ViberSender.__init__ sample_config).

(** A Viber sender whose token has a character outside latin-1 (the euro
    sign, three bytes in UTF-8). *)
Definition viber_with_euro_token : ViberSender.t :=
  ViberSender.mk "https://chatapi.viber.com/pa/"
                 (Some (String (ascii_of_nat 226)
                          (String (ascii_of_nat 130)
                             (String (ascii_of_nat 172) "-token"))))
                 "MOSIP Alerts" EmptyString.

(** The text of the [UnicodeEncodeError] for that token. *)
Definition euro_codec_error : string :=
  "'latin-1' codec can't encode character '\u20ac' in position 0: ordinal not in range(256)".

(** [requests.post] over a network that accepts every call, header encoding
    included. *)
Definition careful_post : requests_api.Post :=
  requests_api.post_with
    (encoding_headers (fun _ => euro_codec_error)
                      (requests.of_network (network accepting_env))).

(** An environment with the WhatsApp token but no phone-number id, and no
    Telegram token. *)
Definition sample_environ : list (string * string) :=
  [ ("WHATSAPP_ACCESS_TOKEN", "wa-token");
    ("VIBER_AUTH_TOKEN", "vb-token");
    ("VIBER_API_URL", "https://chatapi.viber.com/pa/") ].

(* ================================================================== *)
(** * Part II.  Properties *)
(* ================================================================== *)

(** ** The service *)

Section ServiceFacts.

Context {W : Type}.
Implicit Types (self : NotificationService W) (request : NotificationRequest)
         (r : Run W) (w : W).

Lemma invocations_app (a b : list Event) :
  invocations (a ++ b) = (invocations a ++ invocations b)%list.
Proof.
  induction a as [|[line|ch o] a IH]; simpl; [reflexivity|assumption|].
  now rewrite IH.
Qed.

Lemma attempts_channels self request chs w :
  map fst (fst (attempts self request chs w)) = filter (registered self) chs.
Proof.
  revert w; induction chs as [|ch chs IH]; intros w; simpl; [reflexivity|].
  unfold registered at 1.
  destruct (senders self ch) as [sender|]; [|apply IH].
  destruct (sender request w) as [o w'].
  specialize (IH w').
  destruct (attempts self request chs w') as [l w'']; simpl in *.
  now rewrite IH.
Qed.

(** One iteration of the loop, with the [try] statement resolved. *)
Lemma for_channel_in_step self request ch chs acc r :
  for_channel_in self request (ch :: chs) acc r =
    match senders self ch with
    | Some sender =>
        let (o, w') := sender request (world r) in
        for_channel_in self request chs (acc || succeeded o)
          (mkRun w' (trace r ++ [Printed (attempt_line ch); Invoked ch o;
                                 Printed (outcome_line ch o)]))
    | None =>
        for_channel_in self request chs acc
          (mkRun (world r) (trace r ++ [Printed (skip_line ch)]))
    end.
Proof.
  unfold attempt_line, outcome_line, skip_line.
  cbn [for_channel_in].
  destruct (senders self ch) as [sender|].
  - cbv [bind print emit Run_Stdout try_except invoke ret world trace].
    destruct r as [w tr].
    destruct (sender request w) as [[[|]|e] w'];
      cbv [find_handler isinstance succeeded];
      rewrite ?orb_true_r, ?orb_false_r, <- ?app_assoc; reflexivity.
  - cbv [bind print emit Run_Stdout ret world trace].
    destruct r as [w tr]. reflexivity.
Qed.

(** What one pass over [chs] does: it never raises; its result is the flag it
    started from or-ed with the successes of the calls it made; the calls
    are those of [attempts], in order, and the senders leave the world of
    [attempts]; every channel without a sender and every call left its line
    in the output. *)
Lemma for_channel_in_spec self request chs :
  forall acc r,
  exists new,
    for_channel_in self request chs acc r =
      (Returned (acc || existsb (fun p => succeeded (snd p))
                                (fst (attempts self request chs (world r)))),
       mkRun (snd (attempts self request chs (world r))) (trace r ++ new))
    /\ invocations new = fst (attempts self request chs (world r))
    /\ (forall ch, In ch chs -> registered self ch = false ->
                   In (Printed (skip_line ch)) new)
    /\ (forall ch o, In (ch, o) (fst (attempts self request chs (world r))) ->
                     In (Printed (outcome_line ch o)) new).
Proof.
  induction chs as [|ch chs IH]; intros acc r.
  - exists []. cbn [for_channel_in attempts fst snd existsb invocations].
    unfold ret. rewrite app_nil_r, orb_false_r.
    destruct r; cbn [world trace].
    repeat split; intros; contradiction.
  - rewrite for_channel_in_step. cbn [attempts]. unfold registered.
    destruct (senders self ch) as [sender|] eqn:Hs.
    + destruct (sender request (world r)) as [o w'] eqn:Hsend.
      destruct (IH (acc || succeeded o)
                   (mkRun w' (trace r ++ [Printed (attempt_line ch); Invoked ch o;
                                          Printed (outcome_line ch o)])))
        as (new & Hrun & Hinv & Hskip & Hline).
      cbn [world trace] in *.
      destruct (attempts self request chs w') as [l w''] eqn:Hatt.
      cbn [fst snd] in *.
      exists (Printed (attempt_line ch) :: Invoked ch o
                :: Printed (outcome_line ch o) :: new).
      split; [|split; [|split]].
      * rewrite Hrun. cbn [existsb snd]. rewrite orb_assoc, <- app_assoc. reflexivity.
      * cbn [invocations]. now rewrite Hinv.
      * intros c [<-|Hin] Hc; [rewrite Hs in Hc; discriminate|].
        right; right; right. now apply Hskip.
      * intros c o' [Heq|Hin].
        -- injection Heq as <- <-. right; right; left. reflexivity.
        -- right; right; right. now apply Hline.
    + destruct (IH acc (mkRun (world r) (trace r ++ [Printed (skip_line ch)])))
        as (new & Hrun & Hinv & Hskip & Hline).
      cbn [world trace] in *.
      exists (Printed (skip_line ch) :: new).
      split; [|split; [|split]].
      * rewrite Hrun. now rewrite <- app_assoc.
      * exact Hinv.
      * intros c [<-|Hin] Hc; [left; reflexivity|right; now apply Hskip].
      * intros c o Hin. right. now apply Hline.
Qed.

Lemma In_invocations (tr : list Event) ch o :
  In (ch, o) (invocations tr) <-> In (Invoked ch o) tr.
Proof.
  induction tr as [|[line|c o'] tr IH]; cbn [invocations In].
  - tauto.
  - split; [intros H; right; now apply IH|].
    intros [H|H]; [discriminate|now apply IH].
  - split.
    + intros [H|H]; [injection H as -> ->; now left|right; now apply IH].
    + intros [H|H]; [injection H as -> ->; now left|right; now apply IH].
Qed.

Lemma existsb_succeeded (l : list (NotificationChannel * Outcome bool)) :
  existsb (fun p => succeeded (snd p)) l = true <->
  exists ch, In (ch, Returned true) l.
Proof.
  rewrite existsb_exists. split.
  - intros [[ch o] [Hin Hs]]. exists ch.
    destruct o as [[|]|e]; try discriminate. exact Hin.
  - intros [ch Hin]. exists (ch, Returned true). split; [exact Hin|reflexivity].
Qed.

(** The whole of [send_notification], started on a fresh trace. *)
Lemma send_notification_spec self request w :
  exists new,
    send_notification self request (mkRun w []) =
      (Returned (existsb (fun p => succeeded (snd p))
                         (fst (attempts self request (channels request) w))),
       mkRun (snd (attempts self request (channels request) w)) new)
    /\ invocations new = fst (attempts self request (channels request) w)
    /\ (forall ch, In ch (channels request) -> registered self ch = false ->
                   In (Printed (skip_line ch)) new)
    /\ (forall ch o, In (Invoked ch o) new -> In (Printed (outcome_line ch o)) new).
Proof.
  unfold send_notification.
  destruct (channels request) as [|ch chs] eqn:Hch.
  - exists [Printed "No notification channels specified in the request."].
    repeat split; try (intros; contradiction).
    intros ch o [H|[]]. discriminate.
  - destruct (for_channel_in_spec self request (ch :: chs) false (mkRun w []))
      as (new & Hrun & Hinv & Hskip & Hline).
    cbn [world trace app orb] in *.
    exists new. repeat split; try assumption.
    intros c o Hin. apply Hline. rewrite <- Hinv. now apply In_invocations.
Qed.

Lemma channel_eqb_eq a b : channel_eqb a b = true -> a = b.
Proof. destruct a, b; simpl; congruence. Qed.

Lemma channel_eqb_refl a : channel_eqb a a = true.
Proof. now destruct a. Qed.

Lemma occurrences_registered self ch chs :
  registered self ch = true ->
  occurrences ch (filter (registered self) chs) = occurrences ch chs.
Proof.
  intros Hreg. unfold occurrences.
  induction chs as [|c chs IH]; [reflexivity|].
  cbn [filter].
  destruct (channel_eqb ch c) eqn:Heq.
  - apply channel_eqb_eq in Heq. subst c. rewrite Hreg.
    cbn [filter]. rewrite channel_eqb_refl. cbn [length]. now rewrite IH.
  - destruct (registered self c); [cbn [filter]; rewrite Heq|]; exact IH.
Qed.

End ServiceFacts.

(** C1.  [send_notification] returns [True] exactly when one of the sender
    calls it made returned [True], and the calls it made are those of the
    senders registered for the requested channels, run one after the other;
    on an empty [channels] list it returns [False], calls no sender and
    leaves the world as it was. *)
Theorem send_notification_true_iff_a_sender_returned_true :
  forall (W : Type) (self : NotificationService W) (request : NotificationRequest) (w : W),
  exists (b : bool) (r' : Run W),
    send_notification self request (mkRun w []) = (Returned b, r')
    /\ (invocations (trace r'), world r') = attempts self request (channels request) w
    /\ (b = true <-> exists ch, In (Invoked ch (Returned true)) (trace r'))
    /\ (b = true <->
        exists ch, In (ch, Returned true) (fst (attempts self request (channels request) w)))
    /\ (channels request = [] ->
        b = false /\ invocations (trace r') = [] /\ world r' = w).
Proof.
  intros W self request w.
  destruct (send_notification_spec self request w) as (new & Hrun & Hinv & _ & _).
  eexists; eexists. split; [exact Hrun|]. cbn [trace world].
  split; [rewrite Hinv; now destruct (attempts self request (channels request) w)|].
  split; [|split].
  - rewrite existsb_succeeded, <- Hinv.
    split; intros [ch H]; exists ch; now apply In_invocations.
  - apply existsb_succeeded.
  - intros Hnil. rewrite Hinv, Hnil. cbn. repeat split.
Qed.

Lemma send_notification_is_true_when_telegram_succeeds :
  (exists (b : bool) (r' : Run (list NotificationChannel)),
      send_notification mock_service sample_request (mkRun [] []) = (Returned b, r')
      /\ b = true
      /\ invocations (trace r') = [(TELEGRAM, Returned true); (VIBER, Returned false)]
      /\ world r' = [TELEGRAM; VIBER])
  /\ (exists (b : bool) (r' : Run (list NotificationChannel)),
      send_notification mock_service request_without_channels (mkRun [] [])
      = (Returned b, r')
      /\ b = false /\ invocations (trace r') = [] /\ world r' = []).
Proof.
  split.
  - destruct (send_notification_true_iff_a_sender_returned_true
                _ mock_service sample_request [])
      as (b & r' & Hrun & Hatt & Hiff & _).
    assert (Hval : attempts mock_service sample_request (channels sample_request) []
                   = ([(TELEGRAM, Returned true); (VIBER, Returned false)],
                      [TELEGRAM; VIBER])) by reflexivity.
    rewrite Hval in Hatt. injection Hatt as Hinv Hworld.
    exists b, r'. split; [exact Hrun|]. split; [|split; assumption].
    apply Hiff. exists TELEGRAM. apply In_invocations. rewrite Hinv. left. reflexivity.
  - destruct (send_notification_true_iff_a_sender_returned_true
                _ mock_service request_without_channels [])
      as (b & r' & Hrun & _ & _ & _ & Hnil).
    exists b, r'. split; [exact Hrun|]. apply Hnil. reflexivity.
Defined.

(** C2.  [send_notification] never raises, whatever the senders do.  The
    calls it makes are those of the senders registered for the requested
    channels, each run from the world the one before left, whether that one
    returned or raised.  A call that raises is caught and reported on the
    output, and counts as a failure of its channel: the result is [True] only
    if some call returned [True].  A requested channel without a sender
    leaves its "No sender found" line and nothing else; alone in the request
    it gives [False]. *)
Theorem send_notification_never_raises :
  forall (W : Type) (self : NotificationService W) (request : NotificationRequest) (w : W),
  exists (b : bool) (r' : Run W),
    send_notification self request (mkRun w []) = (Returned b, r')
    /\ (invocations (trace r'), world r') = attempts self request (channels request) w
    /\ b = existsb (fun p => succeeded (snd p)) (invocations (trace r'))
    /\ (forall ch e, In (Invoked ch (Raised e)) (trace r') ->
                     In (Printed (outcome_line ch (Raised e))) (trace r'))
    /\ map fst (invocations (trace r')) = filter (registered self) (channels request)
    /\ (forall ch, In ch (channels request) -> registered self ch = false ->
                   In (Printed (skip_line ch)) (trace r')
                   /\ forall o, ~ In (Invoked ch o) (trace r'))
    /\ (forall ch, channels request = [ch] -> registered self ch = false -> b = false).
Proof.
  intros W self request w.
  destruct (send_notification_spec self request w) as (new & Hrun & Hinv & Hskip & Hline).
  eexists; eexists. split; [exact Hrun|]. cbn [trace world].
  assert (Hchs : map fst (invocations new) = filter (registered self) (channels request)).
  { rewrite Hinv. apply attempts_channels. }
  split; [rewrite Hinv; now destruct (attempts self request (channels request) w)|].
  split; [now rewrite Hinv|].
  split; [intros ch e; apply Hline|].
  split; [exact Hchs|].
  split.
  - intros ch Hin Hreg. split; [now apply Hskip|].
    intros o Ho. apply In_invocations in Ho.
    apply (in_map fst) in Ho. rewrite Hchs in Ho. cbn [fst] in Ho.
    apply filter_In in Ho. destruct Ho as [_ Ho]. congruence.
  - intros ch Hone Hreg. rewrite <- Hinv.
    destruct (invocations new) as [|p l] eqn:Hl; [reflexivity|].
    rewrite Hone in Hchs. cbn [filter] in Hchs. rewrite Hreg in Hchs. discriminate.
Qed.

Lemma telegram_is_called_after_whatsapp_raised :
  (exists (b : bool) (r' : Run (list NotificationChannel)),
      send_notification mock_service request_whatsapp_then_telegram (mkRun [] [])
      = (Returned b, r')
      /\ b = true
      /\ invocations (trace r')
         = [ (WHATSAPP, Raised (mkExc (OtherException "RuntimeError") "boom"));
             (TELEGRAM, Returned true) ]
      /\ world r' = [WHATSAPP; TELEGRAM]
      /\ In (Printed "Error sending notification via WHATSAPP: boom") (trace r'))
  /\ (exists (b : bool) (r' : Run (list NotificationChannel)),
      send_notification mock_service request_by_email (mkRun [] []) = (Returned b, r')
      /\ b = false
      /\ In (Printed "No sender found for channel: EMAIL") (trace r')).
Proof.
  split.
  - destruct (send_notification_never_raises
                _ mock_service request_whatsapp_then_telegram [])
      as (b & r' & Hrun & Hatt & Hb & Hraised & _).
    assert (Hval : attempts mock_service request_whatsapp_then_telegram
                            (channels request_whatsapp_then_telegram) []
                   = ([ (WHATSAPP, Raised (mkExc (OtherException "RuntimeError") "boom"));
                        (TELEGRAM, Returned true) ],
                      [WHATSAPP; TELEGRAM])) by reflexivity.
    rewrite Hval in Hatt. injection Hatt as Hinv Hworld.
    exists b, r'. split; [exact Hrun|]. split; [|split; [|split]].
    + rewrite Hb, Hinv. reflexivity.
    + exact Hinv.
    + exact Hworld.
    + apply (Hraised WHATSAPP (mkExc (OtherException "RuntimeError") "boom")).
      apply In_invocations. rewrite Hinv. left. reflexivity.
  - destruct (send_notification_never_raises _ mock_service request_by_email [])
      as (b & r' & Hrun & _ & _ & _ & _ & Hskip & Hone).
    exists b, r'. split; [exact Hrun|]. split.
    + apply (Hone EMAIL); reflexivity.
    + apply (Hskip EMAIL); [now left|reflexivity].
Defined.

(** C4.  [send_notification] calls the sender registered for each requested
    channel once for each occurrence of the channel in the list, in list
    order, each call starting from the world the one before left.  The calls
    do not depend on the results: a channel after one that returned [True] is
    called all the same. *)
Theorem send_notification_calls_each_registered_channel_in_order :
  forall (W : Type) (self : NotificationService W) (request : NotificationRequest) (w : W),
  exists (b : bool) (r' : Run W),
    send_notification self request (mkRun w []) = (Returned b, r')
    /\ map fst (invocations (trace r')) = filter (registered self) (channels request)
    /\ (forall ch, registered self ch = true ->
                   occurrences ch (map fst (invocations (trace r')))
                   = occurrences ch (channels request))
    /\ (invocations (trace r'), world r') = attempts self request (channels request) w
    /\ (forall before ch after,
           channels request = (before ++ ch :: after)%list ->
           registered self ch = true ->
           exists o, In (Invoked ch o) (trace r')).
Proof.
  intros W self request w.
  destruct (send_notification_spec self request w) as (new & Hrun & Hinv & _ & _).
  eexists; eexists. split; [exact Hrun|]. cbn [trace world].
  assert (Hchs : map fst (invocations new) = filter (registered self) (channels request)).
  { rewrite Hinv. apply attempts_channels. }
  split; [exact Hchs|].
  split; [intros ch Hreg; rewrite Hchs; now apply occurrences_registered|].
  split; [rewrite Hinv; now destruct (attempts self request (channels request) w)|].
  intros before ch after Hsplit Hreg.
  assert (Hin : In ch (map fst (invocations new))).
  { rewrite Hchs. apply filter_In. split; [|exact Hreg].
    rewrite Hsplit. apply in_or_app. right. now left. }
  apply in_map_iff in Hin. destruct Hin as ([c o] & Hc & Hin). cbn [fst] in Hc. subst c.
  exists o. now apply In_invocations.
Qed.

Lemma viber_is_called_after_telegram_succeeded :
  exists (b : bool) (r' : Run (list NotificationChannel)),
    send_notification mock_service sample_request (mkRun [] []) = (Returned b, r')
    /\ map fst (invocations (trace r')) = [TELEGRAM; VIBER]
    /\ occurrences VIBER (map fst (invocations (trace r'))) = 1
    /\ exists o, In (Invoked VIBER o) (trace r').
Proof.
  destruct (send_notification_calls_each_registered_channel_in_order
              _ mock_service sample_request [])
    as (b & r' & Hrun & Horder & Hcount & _ & Hlater).
  exists b, r'. split; [exact Hrun|]. split; [exact Horder|]. split.
  - rewrite (Hcount VIBER); reflexivity.
  - apply (Hlater [TELEGRAM] VIBER []); reflexivity.
Defined.

(** ** messages/ *)

Section FormatFacts.

Variable extended : ExtendedField.

Lemma brace_free_app a b :
  brace_free (a ++ b) = brace_free a && brace_free b.
Proof.
  induction a as [|c a IH]; cbn [append brace_free]; [reflexivity|].
  now rewrite IH, andb_assoc.
Qed.

(** Nothing is replaced in a template without braces. *)
Lemma format_from_brace_free template :
  forall an args,
    brace_free template = true ->
    format_from extended in_text an template args = Returned template.
Proof.
  induction template as [|c t IH]; intros an args Hfree; [reflexivity|].
  cbn [brace_free] in Hfree.
  apply andb_prop in Hfree. destruct Hfree as [Hc Ht].
  apply andb_prop in Hc. destruct Hc as [Ho Hcl].
  apply negb_true_iff in Ho, Hcl.
  cbn [format_from]. rewrite Ho, Hcl, (IH an args Ht). reflexivity.
Qed.

Lemma format_brace_free template args :
  brace_free template = true -> format extended template args = Returned template.
Proof. apply format_from_brace_free. Qed.

End FormatFacts.

Section MessagesFacts.

Import messages.
Variable env : Env.

(** Whatever the locale, the bundle is the English one: it is the only one
    in [_messages] and the fallback of the lookup. *)
Lemma message_bundle_is_en locale :
  dict_get_default _messages locale en.MESSAGES = en.MESSAGES.
Proof.
  unfold dict_get_default, _messages. cbn [dict_get].
  now destruct (String.eqb "en" locale).
Qed.

(** [get_localized_message] with its [try] statement resolved. *)
Lemma get_localized_message_eq key locale args w :
  get_localized_message env key locale args w =
    match format (extended_field env) (template_for key) args with
    | Returned t => (Returned t, w)
    | Raised e =>
        (Returned (template_for key),
         emit (formatting_failure_line key locale (template_for key) e) w)
    end.
Proof.
  unfold get_localized_message, formatting_failure_line.
  change (dict_getitem _messages "en") with (@ret World _ en.MESSAGES).
  cbv [bind ret]. rewrite message_bundle_is_en.
  fold (template_for key).
  cbv [try_except lift].
  destruct (format (extended_field env) (template_for key) args) as [t|e];
    [reflexivity|].
  cbv [find_handler isinstance].
  destruct (exc_class e); reflexivity.
Qed.

Lemma template_for_missing key :
  dict_get en.MESSAGES key = None -> template_for key = missing_message key.
Proof. unfold template_for, dict_get_default. now intros ->. Qed.

Lemma template_for_found key template :
  dict_get en.MESSAGES key = Some template -> template_for key = template.
Proof. unfold template_for, dict_get_default. now intros ->. Qed.

(** The templates of the table. *)
Lemma table_templates key template :
  dict_get en.MESSAGES key = Some template ->
  In template (map snd en.MESSAGES).
Proof.
  unfold en.MESSAGES. cbn [dict_get map snd In].
  repeat match goal with
         | |- context [String.eqb ?a key] => destruct (String.eqb a key)
         end;
    intros H; try discriminate; injection H as <-; tauto.
Qed.

(** Each template of the table has three fields: with fewer than three
    arguments formatting stops on [IndexError]. *)
Lemma table_template_needs_three_arguments template args :
  In template (map snd en.MESSAGES) ->
  length args < 3 ->
  exists msg, format (extended_field env) template args = Raised (mkExc IndexError msg).
Proof.
  intros Hin Hlen.
  destruct args as [|a [|b [|c args]]]; cbn [length] in Hlen; try lia;
    cbn [en.MESSAGES map snd In] in Hin;
    destruct Hin as [<-|[<-|[<-|[]]]]; eexists; vm_compute; reflexivity.
Qed.

(** With three arguments or more the fields are filled in order. *)
Lemma format_telegram_template a b c more :
  format (extended_field env) "Alert: Your {} expires on {}. Action required: {}."
         (a :: b :: c :: more)
  = Returned ("Alert: Your " ++ a ++ " expires on " ++ b ++ ". Action required: " ++ c ++ ".").
Proof. reflexivity. Qed.

Lemma format_viber_template a b c more :
  format (extended_field env) "Important: {} expires {}. Next steps: {}."
         (a :: b :: c :: more)
  = Returned ("Important: " ++ a ++ " expires " ++ b ++ ". Next steps: " ++ c ++ ".").
Proof. reflexivity. Qed.

Lemma format_whatsapp_template a b c more :
  format (extended_field env)
         "Dear User, your {} will expire on {}. Please take the following action: {}."
         (a :: b :: c :: more)
  = Returned ("Dear User, your " ++ a ++ " will expire on " ++ b
              ++ ". Please take the following action: " ++ c ++ ".").
Proof. reflexivity. Qed.

End MessagesFacts.

(** A key with a field in it: the sentinel is a template like any other, and
    the argument replaces the field. *)
Lemma missing_key_sentinel_is_formatted :
  dict_get messages.en.MESSAGES "{}" = None
  /\ fst (messages.get_localized_message sample_env "{}" "en" ["x"] empty_world)
     = Returned "Missing message for key: x"
  /\ "Missing message for key: x" <> messages.missing_message "{}".
Proof.
  split; [reflexivity|]. split; [reflexivity|]. discriminate.
Qed.

(** C6, amended.  [get_localized_message] returns a string and never raises,
    and makes no call to the network.  Whatever the locale, the result is the
    one the "en" table gives.  The template is the entry of the table for the
    key, or the sentinel "Missing message for key: <key>" when there is none;
    the result is the template formatted with the arguments, or the template
    as it is when formatting fails.  So a missing key whose text has no brace
    gives the sentinel itself, and a template of the table given fewer than
    its three arguments comes back unformatted. *)
Theorem get_localized_message_never_raises :
  forall (env : Env) (key locale : string) (args : list string) (w : World),
  exists (s : string) (w' : World),
    messages.get_localized_message env key locale args w = (Returned s, w')
    /\ outbound w' = outbound w
    /\ fst (messages.get_localized_message env key "en" args w) = Returned s
    /\ s = match format (extended_field env) (template_for key) args with
           | Returned t => t
           | Raised _ => template_for key
           end
    /\ (dict_get messages.en.MESSAGES key = None ->
        template_for key = messages.missing_message key
        /\ (brace_free key = true -> s = messages.missing_message key))
    /\ (forall template,
           dict_get messages.en.MESSAGES key = Some template ->
           length args < 3 -> s = template).
Proof.
  intros env key locale args w.
  rewrite !get_localized_message_eq.
  destruct (format (extended_field env) (template_for key) args) as [t|e] eqn:Hfmt.
  - exists t, w. repeat split.
    + now apply template_for_missing.
    + intros Hfree. rewrite (template_for_missing _ H) in Hfmt.
      rewrite format_brace_free in Hfmt; [congruence|].
      unfold messages.missing_message. rewrite brace_free_app, Hfree. reflexivity.
    + intros template Hfound Hlen.
      rewrite (template_for_found _ _ Hfound) in Hfmt.
      destruct (table_template_needs_three_arguments env template args
                  (table_templates _ _ Hfound) Hlen) as [msg Hraise].
      congruence.
  - eexists; eexists. repeat split.
    + now apply template_for_missing.
    + intros _. now apply template_for_missing.
    + intros template Hfound _. now apply template_for_found.
Qed.

Lemma get_localized_message_on_sample_keys :
  (exists w', messages.get_localized_message sample_env "email.expiry.message" "fr"
                ["Certificate"; "31-12-2025"; "Renew it"] empty_world
              = (Returned "Missing message for key: email.expiry.message", w'))
  /\ (exists w', messages.get_localized_message sample_env "telegram.expiry.message" "fr"
                   ["Certificate"; "31-12-2025"] empty_world
                 = (Returned "Alert: Your {} expires on {}. Action required: {}.", w')).
Proof.
  split.
  - destruct (get_localized_message_never_raises
                sample_env "email.expiry.message" "fr"
                ["Certificate"; "31-12-2025"; "Renew it"] empty_world)
      as (s & w' & Hrun & _ & _ & _ & Hmissing & _).
    exists w'. rewrite Hrun. f_equal. f_equal.
    apply Hmissing; reflexivity.
  - destruct (get_localized_message_never_raises
                sample_env "telegram.expiry.message" "fr"
                ["Certificate"; "31-12-2025"] empty_world)
      as (s & w' & Hrun & _ & _ & _ & _ & Hfew).
    exists w'. rewrite Hrun. f_equal. f_equal.
    apply Hfew; [reflexivity|]. cbn [length]. lia.
Defined.

(** ** senders/ *)

(** Unfolds the monad of a [send] body down to the decisions it takes. *)
Ltac run_send :=
  cbv [with_locals bind ret raise call lift print emit Frame_Stdout World_Stdout
       set_locals get_locals try_except find_handler isinstance exc_class
       requests_api.raise_for_status requests_api.json_
       outer locals stdout outbound].

Lemma http_error_ranges r :
  http_error r = false ->
  Nat.leb 400 (requests.status_code r) && Nat.ltb (requests.status_code r) 500 = false
  /\ Nat.leb 500 (requests.status_code r) && Nat.ltb (requests.status_code r) 600 = false.
Proof.
  unfold http_error. intros H.
  destruct (Nat.leb_spec 400 (requests.status_code r));
    destruct (Nat.ltb_spec (requests.status_code r) 600);
    cbn [andb] in H; try discriminate;
    destruct (Nat.leb_spec 500 (requests.status_code r));
    destruct (Nat.ltb_spec (requests.status_code r) 500);
    cbn [andb]; split; try reflexivity; lia.
Qed.

Lemma http_error_raises r :
  http_error r = true ->
  Nat.leb 400 (requests.status_code r) && Nat.ltb (requests.status_code r) 500 = true
  \/ (Nat.leb 400 (requests.status_code r) && Nat.ltb (requests.status_code r) 500 = false
      /\ Nat.leb 500 (requests.status_code r) && Nat.ltb (requests.status_code r) 600 = true).
Proof.
  unfold http_error. intros H.
  destruct (Nat.leb_spec 400 (requests.status_code r));
    destruct (Nat.ltb_spec (requests.status_code r) 600);
    cbn [andb] in H; try discriminate;
    destruct (Nat.leb_spec 500 (requests.status_code r));
    destruct (Nat.ltb_spec (requests.status_code r) 500);
    cbn [andb]; try (now left); try (right; now split); lia.
Qed.

Lemma attempt_outcome_of_network (t : requests.Transport) :
  attempt_outcome (requests.outcome_of t) = Returned (delivered t).
Proof. destruct t; reflexivity. Qed.

(** Closes the goal left by a [try] block once the outcome of the call is
    known. *)
Ltac finish_attempt r :=
  cbn [attempt_outcome delivered];
  let He := fresh "He" in
  let H4 := fresh "H4" in
  let H5 := fresh "H5" in
  destruct (http_error r) eqn:He;
  [ destruct (http_error_raises r He) as [H4|[H4 H5]];
    [ rewrite H4 | rewrite H4, H5 ];
    eexists; split; reflexivity
  | destruct (http_error_ranges r He) as [H4 H5]; rewrite H4, H5;
    destruct (requests.body r); eexists; split; reflexivity ].

(** The same when the call raised. *)
Ltac finish_raised e :=
  let cls := fresh "cls" in
  let msg := fresh "msg" in
  destruct e as [cls msg];
  destruct cls; eexists; split; reflexivity.

(** *** The senders with any [requests.post] *)

Section SendWithFacts.

Variable post : requests_api.Post.
Variable env : Env.
Implicit Types (request : NotificationRequest) (w : World).

Lemma whatsapp_no_recipient_with (self : WhatsAppSender.t) request w :
  truthy (recipient_phone_number request) = false ->
  WhatsAppSender.send_with post self request w
  = (Returned false, emit "WhatsApp recipient phone number is missing." w).
Proof. intros H. unfold WhatsAppSender.send_with. rewrite H. reflexivity. Qed.

Lemma whatsapp_not_configured_with (self : WhatsAppSender.t) request w :
  truthy (recipient_phone_number request) = true ->
  truthy (WhatsAppSender.access_token self) = false
  \/ truthy (WhatsAppSender.from_phone_number_id self) = false ->
  WhatsAppSender.send_with post self request w
  = (Returned false,
     emit "WhatsApp API access token or phone number ID is not configured." w).
Proof.
  intros Hp H. unfold WhatsAppSender.send_with. rewrite Hp.
  destruct H as [H|H]; rewrite H; rewrite ?orb_true_r; reflexivity.
Qed.

(** Past the guards: one call of [post], and the result made of its
    outcome. *)
Lemma whatsapp_attempt (self : WhatsAppSender.t) request w :
  whatsapp_ready self request = true ->
  exists w',
    WhatsAppSender.send_with post self request w
    = (attempt_outcome
         (fst (post (WhatsAppSender.api_endpoint self)
                    (WhatsAppSender.payload self request)
                    (WhatsAppSender.headers self) w)), w')
    /\ outbound w'
       = outbound (snd (post (WhatsAppSender.api_endpoint self)
                             (WhatsAppSender.payload self request)
                             (WhatsAppSender.headers self) w)).
Proof.
  unfold whatsapp_ready. intros Hready.
  apply andb_prop in Hready. destruct Hready as [Hready Hi].
  apply andb_prop in Hready. destruct Hready as [Hp Ht].
  unfold WhatsAppSender.send_with.
  rewrite Hp, Ht, Hi. cbn [negb orb]. run_send.
  destruct (post _ _ _ w) as [[r|e] w1]; cbn [fst snd].
  - finish_attempt r.
  - finish_raised e.
Qed.

Lemma telegram_message request w :
  messages.get_localized_message env "telegram.expiry.message" (locale request)
    [expiry_type request; expiry_date_formatted request; action_steps request] w
  = (Returned (telegram_text request), w).
Proof.
  rewrite get_localized_message_eq.
  change (template_for "telegram.expiry.message")
    with "Alert: Your {} expires on {}. Action required: {}.".
  now rewrite format_telegram_template.
Qed.

Lemma telegram_no_recipient_with (self : TelegramSender.t) request w :
  truthy (telegram_chat_id request) = false ->
  TelegramSender.send_with post env self request w
  = (Returned false, emit "Telegram chat ID is missing." w).
Proof. intros H. unfold TelegramSender.send_with. rewrite H. reflexivity. Qed.

Lemma telegram_not_configured_with (self : TelegramSender.t) request w :
  truthy (telegram_chat_id request) = true ->
  truthy (TelegramSender.bot_token self) = false ->
  TelegramSender.send_with post env self request w
  = (Returned false, emit "Telegram Bot Token is not configured." w).
Proof. intros Hc H. unfold TelegramSender.send_with. rewrite Hc, H. reflexivity. Qed.

Lemma telegram_attempt (self : TelegramSender.t) request w :
  telegram_ready self request = true ->
  exists w',
    TelegramSender.send_with post env self request w
    = (attempt_outcome
         (fst (post (TelegramSender.api_endpoint self)
                    (TelegramSender.payload request (telegram_text request))
                    [] w)), w')
    /\ outbound w'
       = outbound (snd (post (TelegramSender.api_endpoint self)
                             (TelegramSender.payload request (telegram_text request))
                             [] w)).
Proof.
  unfold telegram_ready. intros Hready.
  apply andb_prop in Hready. destruct Hready as [Hc Ht].
  unfold TelegramSender.send_with.
  rewrite Hc, Ht. cbn [negb]. run_send. rewrite telegram_message.
  destruct (post _ _ _ w) as [[r|e] w1]; cbn [fst snd].
  - finish_attempt r.
  - finish_raised e.
Qed.

Lemma viber_message request w :
  messages.get_localized_message env "viber.expiry.message" (locale request)
    [expiry_type request; expiry_date_formatted request; action_steps request] w
  = (Returned (viber_text request), w).
Proof.
  rewrite get_localized_message_eq.
  change (template_for "viber.expiry.message")
    with "Important: {} expires {}. Next steps: {}.".
  now rewrite format_viber_template.
Qed.

Lemma viber_no_recipient_with (self : ViberSender.t) request w :
  truthy (viber_user_id request) = false ->
  ViberSender.send_with post env self request w
  = (Returned false, emit "Viber user ID is missing." w).
Proof. intros H. unfold ViberSender.send_with. rewrite H. reflexivity. Qed.

Lemma viber_not_configured_with (self : ViberSender.t) request w :
  truthy (viber_user_id request) = true ->
  truthy (ViberSender.auth_token self) = false ->
  ViberSender.send_with post env self request w
  = (Returned false, emit "Viber Auth Token is not configured." w).
Proof. intros Hu H. unfold ViberSender.send_with. rewrite Hu, H. reflexivity. Qed.

Lemma viber_attempt (self : ViberSender.t) request w :
  viber_ready self request = true ->
  exists w',
    ViberSender.send_with post env self request w
    = (attempt_outcome
         (fst (post (ViberSender.api_endpoint self)
                    (ViberSender.payload self request (viber_text request))
                    (ViberSender.headers self) w)), w')
    /\ outbound w'
       = outbound (snd (post (ViberSender.api_endpoint self)
                             (ViberSender.payload self request (viber_text request))
                             (ViberSender.headers self) w)).
Proof.
  unfold viber_ready. intros Hready.
  apply andb_prop in Hready. destruct Hready as [Hu Ht].
  unfold ViberSender.send_with.
  rewrite Hu, Ht. cbn [negb]. run_send. rewrite viber_message.
  destruct (post _ _ _ w) as [[r|e] w1]; cbn [fst snd].
  - finish_attempt r.
  - finish_raised e.
Qed.

(** A guard that fails: [False], and [post] is not called. *)
Lemma whatsapp_refuses_with (self : WhatsAppSender.t) request w :
  whatsapp_ready self request = false ->
  exists w',
    WhatsAppSender.send_with post self request w = (Returned false, w')
    /\ outbound w' = outbound w.
Proof.
  unfold whatsapp_ready. intros Hready.
  destruct (truthy (recipient_phone_number request)) eqn:Hp.
  - rewrite whatsapp_not_configured_with; [eexists; split; reflexivity|exact Hp|].
    destruct (truthy (WhatsAppSender.access_token self)); [right|left; reflexivity].
    exact Hready.
  - rewrite whatsapp_no_recipient_with by exact Hp. eexists; split; reflexivity.
Qed.

Lemma telegram_refuses_with (self : TelegramSender.t) request w :
  telegram_ready self request = false ->
  exists w',
    TelegramSender.send_with post env self request w = (Returned false, w')
    /\ outbound w' = outbound w.
Proof.
  unfold telegram_ready. intros Hready.
  destruct (truthy (telegram_chat_id request)) eqn:Hc.
  - rewrite telegram_not_configured_with; [eexists; split; reflexivity|exact Hc|].
    exact Hready.
  - rewrite telegram_no_recipient_with by exact Hc. eexists; split; reflexivity.
Qed.

Lemma viber_refuses_with (self : ViberSender.t) request w :
  viber_ready self request = false ->
  exists w',
    ViberSender.send_with post env self request w = (Returned false, w')
    /\ outbound w' = outbound w.
Proof.
  unfold viber_ready. intros Hready.
  destruct (truthy (viber_user_id request)) eqn:Hu.
  - rewrite viber_not_configured_with; [eexists; split; reflexivity|exact Hu|].
    exact Hready.
  - rewrite viber_no_recipient_with by exact Hu. eexists; split; reflexivity.
Qed.

End SendWithFacts.

(** *** The senders with the [requests.post] of an environment *)

Section SenderFacts.

Variable env : Env.
Implicit Types (request : NotificationRequest) (w : World).

(** *** WhatsApp *)

Lemma whatsapp_guarded (self : WhatsAppSender.t) request w :
  truthy (recipient_phone_number request) = false
  \/ truthy (WhatsAppSender.access_token self) = false
  \/ truthy (WhatsAppSender.from_phone_number_id self) = false ->
  exists w',
    WhatsAppSender.send env self request w = (Returned false, w')
    /\ outbound w' = outbound w.
Proof.
  intros H. apply whatsapp_refuses_with. unfold whatsapp_ready.
  destruct H as [H|[H|H]]; rewrite H; rewrite ?andb_false_r; reflexivity.
Qed.

Lemma whatsapp_posts (self : WhatsAppSender.t) request w :
  truthy (recipient_phone_number request) = true ->
  truthy (WhatsAppSender.access_token self) = true ->
  truthy (WhatsAppSender.from_phone_number_id self) = true ->
  exists w',
    WhatsAppSender.send env self request w
    = (Returned (delivered (network env (outbound w) (whatsapp_call self request))), w')
    /\ outbound w' = (outbound w ++ [whatsapp_call self request])%list.
Proof.
  intros Hp Ht Hi.
  destruct (whatsapp_attempt (requests_api.post env) self request w)
    as (w' & Hsend & Hout).
  { unfold whatsapp_ready. now rewrite Hp, Ht, Hi. }
  exists w'. split; [|exact Hout].
  unfold WhatsAppSender.send. rewrite Hsend.
  unfold requests_api.post, requests_api.post_with, requests.of_network. cbn [fst].
  now rewrite attempt_outcome_of_network.
Qed.

(** *** Telegram *)

Lemma telegram_guarded (self : TelegramSender.t) request w :
  truthy (telegram_chat_id request) = false
  \/ truthy (TelegramSender.bot_token self) = false ->
  exists w',
    TelegramSender.send env self request w = (Returned false, w')
    /\ outbound w' = outbound w.
Proof.
  intros H. apply telegram_refuses_with. unfold telegram_ready.
  destruct H as [H|H]; rewrite H; rewrite ?andb_false_r; reflexivity.
Qed.

Lemma telegram_posts (self : TelegramSender.t) request w :
  truthy (telegram_chat_id request) = true ->
  truthy (TelegramSender.bot_token self) = true ->
  exists w',
    TelegramSender.send env self request w
    = (Returned (delivered (network env (outbound w) (telegram_call self request))), w')
    /\ outbound w' = (outbound w ++ [telegram_call self request])%list.
Proof.
  intros Hc Ht.
  destruct (telegram_attempt (requests_api.post env) env self request w)
    as (w' & Hsend & Hout).
  { unfold telegram_ready. now rewrite Hc, Ht. }
  exists w'. split; [|exact Hout].
  unfold TelegramSender.send. rewrite Hsend.
  unfold requests_api.post, requests_api.post_with, requests.of_network. cbn [fst].
  now rewrite attempt_outcome_of_network.
Qed.

(** *** Viber *)

Lemma viber_guarded (self : ViberSender.t) request w :
  truthy (viber_user_id request) = false
  \/ truthy (ViberSender.auth_token self) = false ->
  exists w',
    ViberSender.send env self request w = (Returned false, w')
    /\ outbound w' = outbound w.
Proof.
  intros H. apply viber_refuses_with. unfold viber_ready.
  destruct H as [H|H]; rewrite H; rewrite ?andb_false_r; reflexivity.
Qed.

Lemma viber_posts (self : ViberSender.t) request w :
  truthy (viber_user_id request) = true ->
  truthy (ViberSender.auth_token self) = true ->
  exists w',
    ViberSender.send env self request w
    = (Returned (delivered (network env (outbound w) (viber_call self request))), w')
    /\ outbound w' = (outbound w ++ [viber_call self request])%list.
Proof.
  intros Hu Ht.
  destruct (viber_attempt (requests_api.post env) env self request w)
    as (w' & Hsend & Hout).
  { unfold viber_ready. now rewrite Hu, Ht. }
  exists w'. split; [|exact Hout].
  unfold ViberSender.send. rewrite Hsend.
  unfold requests_api.post, requests_api.post_with, requests.of_network. cbn [fst].
  now rewrite attempt_outcome_of_network.
Qed.

(** Each [send], whatever the guards decide: it returns; the result is
    [True] exactly when the guards are passed and the call is delivered;
    the one call is made exactly when the guards are passed. *)
Lemma whatsapp_total (self : WhatsAppSender.t) request w :
  exists w',
    WhatsAppSender.send env self request w
    = (Returned (whatsapp_ready self request
                 && delivered (network env (outbound w) (whatsapp_call self request))), w')
    /\ outbound w'
       = (outbound w
          ++ if whatsapp_ready self request then [whatsapp_call self request] else [])%list.
Proof.
  unfold whatsapp_ready.
  destruct (truthy (recipient_phone_number request)) eqn:Hp;
    [destruct (truthy (WhatsAppSender.access_token self)) eqn:Ht;
     [destruct (truthy (WhatsAppSender.from_phone_number_id self)) eqn:Hi|]|];
    cbn [andb].
  - exact (whatsapp_posts self request w Hp Ht Hi).
  - destruct (whatsapp_guarded self request w) as (w' & Hs & Ho); [tauto|].
    exists w'. rewrite app_nil_r. now split.
  - destruct (whatsapp_guarded self request w) as (w' & Hs & Ho); [tauto|].
    exists w'. rewrite app_nil_r. now split.
  - destruct (whatsapp_guarded self request w) as (w' & Hs & Ho); [tauto|].
    exists w'. rewrite app_nil_r. now split.
Qed.

Lemma telegram_total (self : TelegramSender.t) request w :
  exists w',
    TelegramSender.send env self request w
    = (Returned (telegram_ready self request
                 && delivered (network env (outbound w) (telegram_call self request))), w')
    /\ outbound w'
       = (outbound w
          ++ if telegram_ready self request then [telegram_call self request] else [])%list.
Proof.
  unfold telegram_ready.
  destruct (truthy (telegram_chat_id request)) eqn:Hc;
    [destruct (truthy (TelegramSender.bot_token self)) eqn:Ht|]; cbn [andb].
  - exact (telegram_posts self request w Hc Ht).
  - destruct (telegram_guarded self request w) as (w' & Hs & Ho); [tauto|].
    exists w'. rewrite app_nil_r. now split.
  - destruct (telegram_guarded self request w) as (w' & Hs & Ho); [tauto|].
    exists w'. rewrite app_nil_r. now split.
Qed.

Lemma viber_total (self : ViberSender.t) request w :
  exists w',
    ViberSender.send env self request w
    = (Returned (viber_ready self request
                 && delivered (network env (outbound w) (viber_call self request))), w')
    /\ outbound w'
       = (outbound w
          ++ if viber_ready self request then [viber_call self request] else [])%list.
Proof.
  unfold viber_ready.
  destruct (truthy (viber_user_id request)) eqn:Hu;
    [destruct (truthy (ViberSender.auth_token self)) eqn:Ht|]; cbn [andb].
  - exact (viber_posts self request w Hu Ht).
  - destruct (viber_guarded self request w) as (w' & Hs & Ho); [tauto|].
    exists w'. rewrite app_nil_r. now split.
  - destruct (viber_guarded self request w) as (w' & Hs & Ho); [tauto|].
    exists w'. rewrite app_nil_r. now split.
Qed.

(** The guards, line by line.  A falsy field ([None] or the empty string)
    takes the same branch and prints the same line. *)
Lemma whatsapp_no_recipient (self : WhatsAppSender.t) request w :
  truthy (recipient_phone_number request) = false ->
  WhatsAppSender.send env self request w
  = (Returned false, emit "WhatsApp recipient phone number is missing." w).
Proof. apply whatsapp_no_recipient_with. Qed.

Lemma whatsapp_not_configured (self : WhatsAppSender.t) request w :
  truthy (recipient_phone_number request) = true ->
  truthy (WhatsAppSender.access_token self) = false
  \/ truthy (WhatsAppSender.from_phone_number_id self) = false ->
  WhatsAppSender.send env self request w
  = (Returned false,
     emit "WhatsApp API access token or phone number ID is not configured." w).
Proof. apply whatsapp_not_configured_with. Qed.

Lemma telegram_no_recipient (self : TelegramSender.t) request w :
  truthy (telegram_chat_id request) = false ->
  TelegramSender.send env self request w
  = (Returned false, emit "Telegram chat ID is missing." w).
Proof. apply telegram_no_recipient_with. Qed.

Lemma telegram_not_configured (self : TelegramSender.t) request w :
  truthy (telegram_chat_id request) = true ->
  truthy (TelegramSender.bot_token self) = false ->
  TelegramSender.send env self request w
  = (Returned false, emit "Telegram Bot Token is not configured." w).
Proof. apply telegram_not_configured_with. Qed.

Lemma viber_no_recipient (self : ViberSender.t) request w :
  truthy (viber_user_id request) = false ->
  ViberSender.send env self request w
  = (Returned false, emit "Viber user ID is missing." w).
Proof. apply viber_no_recipient_with. Qed.

Lemma viber_not_configured (self : ViberSender.t) request w :
  truthy (viber_user_id request) = true ->
  truthy (ViberSender.auth_token self) = false ->
  ViberSender.send env self request w
  = (Returned false, emit "Viber Auth Token is not configured." w).
Proof. apply viber_not_configured_with. Qed.

End SenderFacts.

(** ** The expiry date *)










Example expiry_date_2025_12_31 :
  strftime "%d-%m-%Y" (mkDate 2025 12 31) = "31-12-2025".
Proof. reflexivity. Qed.

(** ** The senders: guards, calls and results *)




(** C7.  A request without the addressing field of a sender ([None]), or a
    sender without its credential, makes [send] return [False] with no call to
    the network.  A sender is built from any configuration, credentials or
    not: the missing credential shows when [send] runs. *)
Theorem send_without_address_or_credential_makes_no_call :
  forall (env : Env) (request : NotificationRequest) (w : World),
    (forall wa : WhatsAppSender.t,
        recipient_phone_number request = None
        \/ WhatsAppSender.access_token wa = None
        \/ WhatsAppSender.from_phone_number_id wa = None ->
        exists w', WhatsAppSender.send env wa request w = (Returned false, w')
                   /\ outbound w' = outbound w)
    /\ (forall tg : TelegramSender.t,
        telegram_chat_id request = None \/ TelegramSender.bot_token tg = None ->
        exists w', TelegramSender.send env tg request w = (Returned false, w')
                   /\ outbound w' = outbound w)
    /\ (forall vb : ViberSender.t,
        viber_user_id request = None \/ ViberSender.auth_token vb = None ->
        exists w', ViberSender.send env vb request w = (Returned false, w')
                   /\ outbound w' = outbound w)
    /\ (forall config : Config,
        WHATSAPP_ACCESS_TOKEN config = None
        \/ WHATSAPP_FROM_PHONE_NUMBER_ID config = None ->
        exists w', WhatsAppSender.send env (WhatsAppSender.__init__ config) request w
                   = (Returned false, w')
                   /\ outbound w' = outbound w)
    /\ (forall config : Config,
        TELEGRAM_BOT_TOKEN config = None ->
        exists w', TelegramSender.send env (TelegramSender.__init__ config) request w
                   = (Returned false, w')
                   /\ outbound w' = outbound w)
    /\ (forall config : Config,
        VIBER_AUTH_TOKEN config = None ->
        exists w', ViberSender.send env (ViberSender.__init__ config) request w
                   = (Returned false, w')
                   /\ outbound w' = outbound w).
Proof.
  intros env request w. repeat split.
  - intros wa H. apply whatsapp_guarded.
    destruct H as [H|[H|H]]; rewrite H; cbn [truthy]; tauto.
  - intros tg H. apply telegram_guarded.
    destruct H as [H|H]; rewrite H; cbn [truthy]; tauto.
  - intros vb H. apply viber_guarded.
    destruct H as [H|H]; rewrite H; cbn [truthy]; tauto.
  - intros config H. apply whatsapp_guarded.
    cbn [WhatsAppSender.__init__ WhatsAppSender.access_token
         WhatsAppSender.from_phone_number_id].
    destruct H as [H|H]; rewrite H; cbn [truthy]; tauto.
  - intros config H. apply telegram_guarded.
    cbn [TelegramSender.__init__ TelegramSender.bot_token].
    rewrite H; cbn [truthy]; tauto.
  - intros config H. apply viber_guarded.
    cbn [ViberSender.__init__ ViberSender.auth_token].
    rewrite H; cbn [truthy]; tauto.
Qed.

Lemma send_without_phone_number_makes_no_call :
  exists w',
    WhatsAppSender.send sample_env (WhatsAppSender.__init__ sample_config)
                        request_without_phone empty_world
    = (Returned false, w')
    /\ outbound w' = [].
Proof.
  apply (proj1 (send_without_address_or_credential_makes_no_call
                  sample_env request_without_phone empty_world)).
  left. reflexivity.
Defined.

(** C8.  With a phone number in the request and the token and phone-number
    id configured, the WhatsApp sender makes one call: a POST to
    [{api_url}/{phone_number_id}/messages], authorised with the bearer token,
    whose JSON body is a message of type "template" with one component, of
    type "body", carrying three text parameters in the order expiry type,
    formatted expiry date, action steps, and the locale of the request as the
    language code of the template. *)
Theorem whatsapp_send_posts_the_template_message :
  forall (env : Env) (self : WhatsAppSender.t) (request : NotificationRequest) (w : World)
         (phone token id : string),
    recipient_phone_number request = Some phone -> phone <> EmptyString ->
    WhatsAppSender.access_token self = Some token -> token <> EmptyString ->
    WhatsAppSender.from_phone_number_id self = Some id -> id <> EmptyString ->
    exists (b : bool) (w' : World),
      WhatsAppSender.send env self request w = (Returned b, w')
      /\ outbound w'
         = (outbound w
            ++ [ requests.mkCall
                   (WhatsAppSender.api_url self ++ "/" ++ id ++ "/messages")
                   (PyDict
                      [ ("messaging_product", PyStr "whatsapp");
                        ("to", PyStr phone);
                        ("type", PyStr "template");
                        ("template",
                         PyDict
                           [ ("name", PyStr (WhatsAppSender.template_name self));
                             ("language", PyDict [ ("code", PyStr (locale request)) ]);
                             ("components",
                              PyList
                                [ PyDict
                                    [ ("type", PyStr "body");
                                      ("parameters",
                                       PyList
                                         [ PyDict [ ("type", PyStr "text");
                                                    ("text", PyStr (expiry_type request)) ];
                                           PyDict [ ("type", PyStr "text");
                                                    ("text", PyStr (expiry_date_formatted request)) ];
                                           PyDict [ ("type", PyStr "text");
                                                    ("text", PyStr (action_steps request)) ] ]) ] ]) ]) ])
                   [ ("Authorization", PyStr ("Bearer " ++ token));
                     ("Content-Type", PyStr "application/json") ] ])%list.
Proof.
  intros env self request w phone token id Hp Hpne Ht Htne Hi Hine.
  assert (Htruthy : forall s, s <> EmptyString -> truthy (Some s) = true).
  { intros s Hs. cbn [truthy]. apply negb_true_iff. now apply String.eqb_neq. }
  destruct (whatsapp_posts env self request w) as (w' & Hsend & Hout).
  - rewrite Hp. now apply Htruthy.
  - rewrite Ht. now apply Htruthy.
  - rewrite Hi. now apply Htruthy.
  - eexists; exists w'. split; [exact Hsend|].
    rewrite Hout. unfold whatsapp_call, WhatsAppSender.api_endpoint,
      WhatsAppSender.payload, WhatsAppSender.template_components, WhatsAppSender.headers.
    rewrite Hp, Ht, Hi. reflexivity.
Qed.

Lemma whatsapp_send_posts_the_sample_alert :
  exists (b : bool) (w' : World),
    WhatsAppSender.send accepting_env (WhatsAppSender.__init__ sample_config)
                        sample_request empty_world
    = (Returned b, w')
    /\ outbound w'
       = [ requests.mkCall
             "https://graph.facebook.com/v19.0/1055/messages"
             (PyDict
                [ ("messaging_product", PyStr "whatsapp");
                  ("to", PyStr "+15550100");
                  ("type", PyStr "template");
                  ("template",
                   PyDict
                     [ ("name", PyStr "expiry_alert_template");
                       ("language", PyDict [ ("code", PyStr "en") ]);
                       ("components",
                        PyList
                          [ PyDict
                              [ ("type", PyStr "body");
                                ("parameters",
                                 PyList
                                   [ PyDict [ ("type", PyStr "text");
                                              ("text", PyStr "Certificate") ];
                                     PyDict [ ("type", PyStr "text");
                                              ("text", PyStr "31-12-2025") ];
                                     PyDict [ ("type", PyStr "text");
                                              ("text", PyStr "Please renew your credential.") ] ]) ] ]) ]) ])
             [ ("Authorization", PyStr "Bearer wa-token");
               ("Content-Type", PyStr "application/json") ] ].
Proof.
  apply (whatsapp_send_posts_the_template_message
           accepting_env (WhatsAppSender.__init__ sample_config) sample_request empty_world
           "+15550100" "wa-token" "1055");
    first [reflexivity | discriminate].
Defined.

(** C10.  The guards test truthiness: an empty string is refused like a
    missing value.  With an empty addressing field, or an empty token, [send]
    takes the branch it takes for [None], prints the same line, returns
    [False] and makes no call. *)
Theorem send_treats_empty_string_as_absent :
  forall (env : Env) (request : NotificationRequest) (w : World)
         (wa : WhatsAppSender.t) (tg : TelegramSender.t) (vb : ViberSender.t),
    (recipient_phone_number request = Some EmptyString
     \/ recipient_phone_number request = None ->
     WhatsAppSender.send env wa request w
     = (Returned false, emit "WhatsApp recipient phone number is missing." w))
    /\ (truthy (recipient_phone_number request) = true ->
        In (WhatsAppSender.access_token wa) [Some EmptyString; None]
        \/ In (WhatsAppSender.from_phone_number_id wa) [Some EmptyString; None] ->
        WhatsAppSender.send env wa request w
        = (Returned false,
           emit "WhatsApp API access token or phone number ID is not configured." w))
    /\ (telegram_chat_id request = Some EmptyString \/ telegram_chat_id request = None ->
        TelegramSender.send env tg request w
        = (Returned false, emit "Telegram chat ID is missing." w))
    /\ (truthy (telegram_chat_id request) = true ->
        In (TelegramSender.bot_token tg) [Some EmptyString; None] ->
        TelegramSender.send env tg request w
        = (Returned false, emit "Telegram Bot Token is not configured." w))
    /\ (viber_user_id request = Some EmptyString \/ viber_user_id request = None ->
        ViberSender.send env vb request w
        = (Returned false, emit "Viber user ID is missing." w))
    /\ (truthy (viber_user_id request) = true ->
        In (ViberSender.auth_token vb) [Some EmptyString; None] ->
        ViberSender.send env vb request w
        = (Returned false, emit "Viber Auth Token is not configured." w))
    /\ (forall line, outbound (emit line w) = outbound w).
Proof.
  intros env request w wa tg vb.
  assert (Hfalsy : forall o : option string,
             In o [Some EmptyString; None] -> truthy o = false).
  { intros o [<-|[<-|[]]]; reflexivity. }
  repeat split.
  - intros H. apply whatsapp_no_recipient. destruct H as [->| ->]; reflexivity.
  - intros Hp H. apply whatsapp_not_configured; [exact Hp|].
    destruct H as [H|H]; [left|right]; now apply Hfalsy.
  - intros H. apply telegram_no_recipient. destruct H as [->| ->]; reflexivity.
  - intros Hc H. apply telegram_not_configured; [exact Hc|now apply Hfalsy].
  - intros H. apply viber_no_recipient. destruct H as [->| ->]; reflexivity.
  - intros Hu H. apply viber_not_configured; [exact Hu|now apply Hfalsy].
Qed.

Lemma send_with_empty_phone_number_makes_no_call :
  WhatsAppSender.send accepting_env (WhatsAppSender.__init__ sample_config)
                      request_with_empty_phone empty_world
  = (Returned false, mkWorld ["WhatsApp recipient phone number is missing."] []).
Proof.
  apply (proj1 (send_treats_empty_string_as_absent
                  accepting_env request_with_empty_phone empty_world
                  (WhatsAppSender.__init__ sample_config)
                  (TelegramSender.__init__ sample_config)
                  (ViberSender.__init__ sample_config))).
  left. reflexivity.
Defined.




(** ** The dataclass *)

(** What the generated [__init__] would do: every argument comes back as it
    was supplied, and the three defaults are the ones of the class body. *)
Lemma generated_init_stores_its_arguments (a : InitArgs) (chs : list NotificationChannel) :
  arg_channels a = Some chs ->
  exists r,
    generated_init a = Returned r
    /\ channels r = chs
    /\ (forall v, arg_recipient_email a = Some v -> recipient_email r = v)
    /\ (forall v, arg_recipient_phone_number a = Some v -> recipient_phone_number r = v)
    /\ (forall v, arg_telegram_chat_id a = Some v -> telegram_chat_id r = v)
    /\ (forall v, arg_viber_user_id a = Some v -> viber_user_id r = v)
    /\ (forall v, arg_message_subject a = Some v -> message_subject r = v)
    /\ (forall v, arg_message_body a = Some v -> message_body r = v)
    /\ (forall v, arg_expiry_type a = Some v -> expiry_type r = v)
    /\ (forall v, arg_expiry_date a = Some v -> expiry_date r = v)
    /\ (forall v, arg_action_steps a = Some v -> action_steps r = v)
    /\ (forall v, arg_locale a = Some v -> locale r = v)
    /\ (arg_expiry_type a = None -> expiry_type r = "Certificate")
    /\ (arg_action_steps a = None -> action_steps r = "Please renew your credential.")
    /\ (arg_locale a = None -> locale r = "en").
Proof.
  intros Hchs. unfold generated_init. rewrite Hchs.
  eexists. split; [reflexivity|].
  cbn [channels recipient_email recipient_phone_number telegram_chat_id viber_user_id
       message_subject message_body expiry_type expiry_date action_steps locale].
  repeat split; intros; unfold or_default;
    match goal with H : _ = _ |- _ => now rewrite H end.
Qed.

(** C9 (the code departs from the specification).  The class body declares [channels]
    without a default after fields that have one, so the [@dataclass]
    decorator raises [TypeError] while the class statement runs: the class is
    never created, and no call of [NotificationRequest(...)] returns a
    request, whatever its arguments. *)
Theorem NotificationRequest_is_never_constructed :
  forall a : InitArgs,
    NotificationRequest_new a
    = Raised (mkExc TypeError
                    "non-default argument 'channels' follows default argument").
Proof. intros a. reflexivity. Qed.

(** ** Scenarios *)

(** Telegram mocked to succeed and Viber to fail: the result is [True] and
    both were called once, Telegram first. *)
Example telegram_succeeds_viber_fails :
  send_notification mock_service sample_request (mkRun [] [])
  = (Returned true,
     mkRun [TELEGRAM; VIBER]
           [ Printed "Attempting to send notification via TELEGRAM";
             Invoked TELEGRAM (Returned true);
             Printed "Successfully sent notification via TELEGRAM";
             Printed "Attempting to send notification via VIBER";
             Invoked VIBER (Returned false);
             Printed "Failed to send notification via VIBER" ]).
Proof. reflexivity. Qed.

(** WhatsApp mocked to raise: the exception is reported, Telegram is called
    all the same and the result is [True]. *)
Example whatsapp_raises_telegram_is_still_called :
  send_notification mock_service request_whatsapp_then_telegram (mkRun [] [])
  = (Returned true,
     mkRun [WHATSAPP; TELEGRAM]
           [ Printed "Attempting to send notification via WHATSAPP";
             Invoked WHATSAPP (Raised (mkExc (OtherException "RuntimeError") "boom"));
             Printed "Error sending notification via WHATSAPP: boom";
             Printed "Attempting to send notification via TELEGRAM";
             Invoked TELEGRAM (Returned true);
             Printed "Successfully sent notification via TELEGRAM" ]).
Proof. reflexivity. Qed.

(** The service of [app.py] on a network that accepts everything: one call
    to Telegram, one to Viber. *)
Example sample_alert_is_dispatched :
  exists r',
    send_notification (sample_service accepting_env) sample_request
                      (mkRun empty_world [])
    = (Returned true, r')
    /\ map requests.endpoint (outbound (world r'))
       = [ "https://api.telegram.org/bottg-token/sendMessage";
           "https://chatapi.viber.com/pa/send_message" ].
Proof. eexists. split; reflexivity. Qed.

(** The same service on a network that is down: every sender returns
    [False] and so does the service. *)
Example sample_alert_on_a_dead_network :
  exists r',
    send_notification (sample_service sample_env) sample_request
                      (mkRun empty_world [])
    = (Returned false, r')
    /\ length (outbound (world r')) = 2.
Proof. eexists. split; reflexivity. Qed.

(** The Viber sender with a token that has no latin-1 encoding: its [send]
    raises, the service reports it and returns what Telegram gave. *)
Example viber_encoding_error_is_caught_by_the_service :
  exists r',
    send_notification
      (notification_service careful_post accepting_env
                            (WhatsAppSender.__init__ sample_config)
                            (TelegramSender.__init__ sample_config)
                            viber_with_euro_token)
      sample_request (mkRun empty_world [])
    = (Returned true, r')
    /\ In (Printed ("Error sending notification via VIBER: " ++ euro_codec_error))
          (trace r').
Proof. eexists. split; [reflexivity|]. cbn. tauto. Qed.

(* ================================================================== *)
(** * Part III.  Further properties of the code *)
(* ================================================================== *)

Lemma truthy_nonempty (s : string) : s <> EmptyString -> truthy (Some s) = true.
Proof. intros Hs. cbn [truthy]. apply negb_true_iff. now apply String.eqb_neq. Qed.

(** ** The calls of the Telegram and Viber senders *)

(** X1.  With a chat id in the request and the bot token configured, the
    Telegram sender makes one call: a POST to [{api_url}{bot_token}/sendMessage]
    with no header of its own, whose JSON body holds the chat id and the
    English text filled with expiry type, formatted date and action steps. *)
Theorem telegram_send_posts_the_text_message :
  forall (env : Env) (self : TelegramSender.t) (request : NotificationRequest) (w : World)
         (chat token : string),
    telegram_chat_id request = Some chat -> chat <> EmptyString ->
    TelegramSender.bot_token self = Some token -> token <> EmptyString ->
    exists (b : bool) (w' : World),
      TelegramSender.send env self request w = (Returned b, w')
      /\ outbound w'
         = (outbound w
            ++ [ requests.mkCall
                   (TelegramSender.api_url self ++ token ++ "/sendMessage")
                   (PyDict
                      [ ("chat_id", PyStr chat);
                        ("text",
                         PyStr ("Alert: Your " ++ expiry_type request ++ " expires on "
                                ++ expiry_date_formatted request ++ ". Action required: "
                                ++ action_steps request ++ ".")) ])
                   [] ])%list.
Proof.
  intros env self request w chat token Hc Hcne Ht Htne.
  destruct (telegram_posts env self request w) as (w' & Hsend & Hout).
  - rewrite Hc. now apply truthy_nonempty.
  - rewrite Ht. now apply truthy_nonempty.
  - eexists; exists w'. split; [exact Hsend|].
    rewrite Hout. unfold telegram_call, TelegramSender.api_endpoint, TelegramSender.payload.
    rewrite Hc, Ht. reflexivity.
Qed.

Lemma telegram_send_posts_the_sample_alert :
  exists (b : bool) (w' : World),
    TelegramSender.send accepting_env (TelegramSender.__init__ sample_config)
                        sample_request empty_world
    = (Returned b, w')
    /\ outbound w'
       = [ requests.mkCall
             "https://api.telegram.org/bottg-token/sendMessage"
             (PyDict
                [ ("chat_id", PyStr "4242");
                  ("text",
                   PyStr "Alert: Your Certificate expires on 31-12-2025. Action required: Please renew your credential..") ])
             [] ].
Proof.
  apply (telegram_send_posts_the_text_message
           accepting_env (TelegramSender.__init__ sample_config) sample_request empty_world
           "4242" "tg-token");
    first [reflexivity | discriminate].
Defined.

(** X2.  With a user id in the request and the auth token configured, the
    Viber sender makes one call: a POST to [{api_url}send_message] carrying
    the token in the header X-Viber-Auth-Token, whose JSON body holds the
    receiver, the type "text", the filled English text and the sender's name
    and avatar. *)
Theorem viber_send_posts_the_text_message :
  forall (env : Env) (self : ViberSender.t) (request : NotificationRequest) (w : World)
         (user token : string),
    viber_user_id request = Some user -> user <> EmptyString ->
    ViberSender.auth_token self = Some token -> token <> EmptyString ->
    exists (b : bool) (w' : World),
      ViberSender.send env self request w = (Returned b, w')
      /\ outbound w'
         = (outbound w
            ++ [ requests.mkCall
                   (ViberSender.api_url self ++ "send_message")
                   (PyDict
                      [ ("receiver", PyStr user);
                        ("type", PyStr "text");
                        ("text",
                         PyStr ("Important: " ++ expiry_type request ++ " expires "
                                ++ expiry_date_formatted request ++ ". Next steps: "
                                ++ action_steps request ++ "."));
                        ("sender",
                         PyDict [ ("name", PyStr (ViberSender.sender_name self));
                                  ("avatar", PyStr (ViberSender.sender_avatar self)) ]) ])
                   [ ("X-Viber-Auth-Token", PyStr token);
                     ("Content-Type", PyStr "application/json") ] ])%list.
Proof.
  intros env self request w user token Hu Hune Ht Htne.
  destruct (viber_posts env self request w) as (w' & Hsend & Hout).
  - rewrite Hu. now apply truthy_nonempty.
  - rewrite Ht. now apply truthy_nonempty.
  - eexists; exists w'. split; [exact Hsend|].
    rewrite Hout. unfold viber_call, ViberSender.api_endpoint, ViberSender.payload,
      ViberSender.headers.
    rewrite Hu, Ht. reflexivity.
Qed.

Lemma viber_send_posts_the_sample_alert :
  exists (b : bool) (w' : World),
    ViberSender.send accepting_env (ViberSender.__init__ sample_config)
                     sample_request empty_world
    = (Returned b, w')
    /\ outbound w'
       = [ requests.mkCall
             "https://chatapi.viber.com/pa/send_message"
             (PyDict
                [ ("receiver", PyStr "viber-user-1");
                  ("type", PyStr "text");
                  ("text",
                   PyStr "Important: Certificate expires 31-12-2025. Next steps: Please renew your credential..");
                  ("sender",
                   PyDict [ ("name", PyStr "MOSIP Alerts");
                            ("avatar", PyStr EmptyString) ]) ])
             [ ("X-Viber-Auth-Token", PyStr "vb-token");
               ("Content-Type", PyStr "application/json") ] ].
Proof.
  apply (viber_send_posts_the_text_message
           accepting_env (ViberSender.__init__ sample_config) sample_request empty_world
           "viber-user-1" "vb-token");
    first [reflexivity | discriminate].
Defined.

(** ** One attempt, no retry *)

(** X3.  Whatever the network answers, a [send] keeps the calls made before
    it and adds at most one: a failed call is not tried again. *)
Theorem send_makes_at_most_one_call :
  forall (env : Env) (request : NotificationRequest) (w : World)
         (wa : WhatsAppSender.t) (tg : TelegramSender.t) (vb : ViberSender.t),
    (exists new,
        outbound (snd (WhatsAppSender.send env wa request w)) = (outbound w ++ new)%list
        /\ length new <= 1)
    /\ (exists new,
        outbound (snd (TelegramSender.send env tg request w)) = (outbound w ++ new)%list
        /\ length new <= 1)
    /\ (exists new,
        outbound (snd (ViberSender.send env vb request w)) = (outbound w ++ new)%list
        /\ length new <= 1).
Proof.
  intros env request w wa tg vb.
  destruct (whatsapp_total env wa request w) as (w1 & H1 & O1).
  destruct (telegram_total env tg request w) as (w2 & H2 & O2).
  destruct (viber_total env vb request w) as (w3 & H3 & O3).
  rewrite H1, H2, H3. cbn [snd].
  split; [|split]; eexists; (split; [eassumption|]).
  - destruct (whatsapp_ready wa request); cbn [length]; lia.
  - destruct (telegram_ready tg request); cbn [length]; lia.
  - destruct (viber_ready vb request); cbn [length]; lia.
Qed.

(** ** What counts as delivered *)

(** X4.  A sender that passed its guards returns [True] for every response
    whose status is below 400 or from 600 up and whose body decodes: the
    status does not have to be a 2xx, since [raise_for_status] only raises on
    4xx and 5xx. *)
Theorem send_accepts_any_status_that_is_no_error :
  forall (env : Env) (request : NotificationRequest) (w : World)
         (r : requests.Response) (shown : string)
         (wa : WhatsAppSender.t) (tg : TelegramSender.t) (vb : ViberSender.t),
    requests.status_code r < 400 \/ 600 <= requests.status_code r ->
    requests.body r = requests.decodes shown ->
    (whatsapp_ready wa request = true ->
     network env (outbound w) (whatsapp_call wa request) = requests.responds r ->
     fst (WhatsAppSender.send env wa request w) = Returned true)
    /\ (telegram_ready tg request = true ->
        network env (outbound w) (telegram_call tg request) = requests.responds r ->
        fst (TelegramSender.send env tg request w) = Returned true)
    /\ (viber_ready vb request = true ->
        network env (outbound w) (viber_call vb request) = requests.responds r ->
        fst (ViberSender.send env vb request w) = Returned true).
Proof.
  intros env request w r shown wa tg vb Hstatus Hbody.
  assert (Hd : delivered (requests.responds r) = true).
  { cbn [delivered]. rewrite Hbody, andb_true_r. apply negb_true_iff.
    unfold http_error.
    destruct (Nat.leb_spec 400 (requests.status_code r));
      destruct (Nat.ltb_spec (requests.status_code r) 600);
      cbn [andb]; try reflexivity; lia. }
  split; [|split]; intros Hready Hnet.
  - destruct (whatsapp_total env wa request w) as (w' & Hsend & _).
    now rewrite Hsend, Hready, Hnet, Hd.
  - destruct (telegram_total env tg request w) as (w' & Hsend & _).
    now rewrite Hsend, Hready, Hnet, Hd.
  - destruct (viber_total env vb request w) as (w' & Hsend & _).
    now rewrite Hsend, Hready, Hnet, Hd.
Qed.

Lemma telegram_send_takes_a_302_for_a_success :
  fst (TelegramSender.send redirecting_env (TelegramSender.__init__ sample_config)
                           sample_request empty_world)
  = Returned true.
Proof.
  refine (proj1 (proj2 (send_accepts_any_status_that_is_no_error
                          redirecting_env sample_request empty_world
                          (requests.mkResponse 302 "Found"
                             "https://api.telegram.org/bottg-token/sendMessage"
                             "{}" (requests.decodes "{}"))
                          "{}"
                          (WhatsAppSender.__init__ sample_config)
                          (TelegramSender.__init__ sample_config)
                          (ViberSender.__init__ sample_config)
                          _ _)) _ _).
  - left. cbn [requests.status_code]. lia.
  - reflexivity.
  - reflexivity.
  - reflexivity.
Defined.

(** ** The fields no sender reads *)

(** X5.  No sender reads [recipient_email], [message_subject], [message_body]
    or [channels]: two requests that agree on the other fields get the same
    result, the same call and the same output from each sender.  A free-text
    body in the request is never sent. *)
Theorem send_ignores_email_subject_body_and_channels :
  forall (env : Env) (request1 request2 : NotificationRequest) (w : World)
         (wa : WhatsAppSender.t) (tg : TelegramSender.t) (vb : ViberSender.t),
    recipient_phone_number request1 = recipient_phone_number request2 ->
    telegram_chat_id request1 = telegram_chat_id request2 ->
    viber_user_id request1 = viber_user_id request2 ->
    expiry_type request1 = expiry_type request2 ->
    expiry_date request1 = expiry_date request2 ->
    action_steps request1 = action_steps request2 ->
    locale request1 = locale request2 ->
    WhatsAppSender.send env wa request1 w = WhatsAppSender.send env wa request2 w
    /\ TelegramSender.send env tg request1 w = TelegramSender.send env tg request2 w
    /\ ViberSender.send env vb request1 w = ViberSender.send env vb request2 w.
Proof.
  intros env [e1 p1 t1 v1 s1 b1 ty1 d1 a1 c1 l1] [e2 p2 t2 v2 s2 b2 ty2 d2 a2 c2 l2]
         w wa tg vb.
  cbn [recipient_phone_number telegram_chat_id viber_user_id expiry_type expiry_date
       action_steps locale].
  intros -> -> -> -> -> -> ->.
  repeat split.
Qed.

Lemma free_text_of_the_request_is_not_sent :
  WhatsAppSender.send accepting_env (WhatsAppSender.__init__ sample_config)
                      request_with_free_text empty_world
  = WhatsAppSender.send accepting_env (WhatsAppSender.__init__ sample_config)
                        sample_request empty_world.
Proof.
  apply (send_ignores_email_subject_body_and_channels
           accepting_env request_with_free_text sample_request empty_world
           (WhatsAppSender.__init__ sample_config)
           (TelegramSender.__init__ sample_config)
           (ViberSender.__init__ sample_config));
    reflexivity.
Defined.

(** ** The loop over the channels *)

Lemma for_channel_in_concat {W : Type} (self : NotificationService W)
      (request : NotificationRequest) (chs1 chs2 : list NotificationChannel) :
  forall (acc : bool) (r : Run W),
    for_channel_in self request (chs1 ++ chs2) acc r
    = bind (for_channel_in self request chs1 acc)
           (fun acc' => for_channel_in self request chs2 acc')
           r.
Proof.
  induction chs1 as [|ch chs1 IH]; intros acc r.
  - reflexivity.
  - change ((ch :: chs1) ++ chs2)%list with (ch :: (chs1 ++ chs2))%list.
    rewrite for_channel_in_step. unfold bind at 1.
    rewrite for_channel_in_step.
    destruct (senders self ch) as [sender|].
    + destruct (sender request (world r)) as [o w']. apply IH.
    + apply IH.
Qed.

(** X6.  The loop over a list of channels that is two lists put together is
    the loop over the first followed by the loop over the second, started
    from the flag and the world the first one left. *)
Theorem for_channel_in_app :
  forall (W : Type) (self : NotificationService W) (request : NotificationRequest)
         (chs1 chs2 : list NotificationChannel) (overall_success : bool) (r : Run W),
    for_channel_in self request (chs1 ++ chs2) overall_success r
    = bind (for_channel_in self request chs1 overall_success)
           (fun overall_success' => for_channel_in self request chs2 overall_success')
           r.
Proof.
  intros W self request chs1 chs2 acc r. apply for_channel_in_concat.
Qed.

(** X7.  A success is never lost: once the flag is [True] the loop returns
    [True], so putting more channels after a list that succeeded cannot turn
    the result into [False]. *)
Theorem for_channel_in_keeps_a_success :
  forall (W : Type) (self : NotificationService W) (request : NotificationRequest)
         (chs1 chs2 : list NotificationChannel) (overall_success : bool) (r r1 : Run W),
    for_channel_in self request chs1 overall_success r = (Returned true, r1) ->
    fst (for_channel_in self request (chs1 ++ chs2) overall_success r) = Returned true.
Proof.
  intros W self request chs1 chs2 acc r r1 Hfirst.
  rewrite for_channel_in_concat. unfold bind. rewrite Hfirst.
  destruct (for_channel_in_spec self request chs2 true r1) as (new & Hrun & _).
  rewrite Hrun. reflexivity.
Qed.

Lemma whatsapp_after_telegram_keeps_the_success :
  fst (for_channel_in mock_service sample_request ([TELEGRAM] ++ [WHATSAPP; EMAIL])
                      false (mkRun [] []))
  = Returned true.
Proof.
  eapply (for_channel_in_keeps_a_success
            _ mock_service sample_request [TELEGRAM] [WHATSAPP; EMAIL] false (mkRun [] [])).
  reflexivity.
Defined.

(** ** The service of app.py, end to end *)

Section AppFacts.

Variable client : requests.Client.
Variable env : Env.
Variable whatsapp_sender : WhatsAppSender.t.
Variable telegram_sender : TelegramSender.t.
Variable viber_sender : ViberSender.t.
Variable request : NotificationRequest.

Let ready := channel_ready whatsapp_sender telegram_sender viber_sender request.
Let call_of := channel_call whatsapp_sender telegram_sender viber_sender request.
Let calls := calls_for whatsapp_sender telegram_sender viber_sender request.
Let service :=
  notification_service (requests_api.post_with client) env
                       whatsapp_sender telegram_sender viber_sender.

(** One [send] over [client]: the result and the calls it leaves. *)
Lemma whatsapp_with_client w :
  exists w',
    WhatsAppSender.send_with (requests_api.post_with client) whatsapp_sender request w
    = (if whatsapp_ready whatsapp_sender request
       then attempt_outcome (client (outbound w) (whatsapp_call whatsapp_sender request))
       else Returned false, w')
    /\ outbound w'
       = (outbound w
          ++ if whatsapp_ready whatsapp_sender request
             then [whatsapp_call whatsapp_sender request] else [])%list.
Proof.
  destruct (whatsapp_ready whatsapp_sender request) eqn:Hready.
  - destruct (whatsapp_attempt (requests_api.post_with client) whatsapp_sender
                               request w Hready) as (w' & Hs & Ho).
    exists w'. split; [exact Hs|exact Ho].
  - destruct (whatsapp_refuses_with (requests_api.post_with client) whatsapp_sender
                                    request w Hready) as (w' & Hs & Ho).
    exists w'. rewrite app_nil_r. now split.
Qed.

Lemma telegram_with_client w :
  exists w',
    TelegramSender.send_with (requests_api.post_with client) env telegram_sender request w
    = (if telegram_ready telegram_sender request
       then attempt_outcome (client (outbound w) (telegram_call telegram_sender request))
       else Returned false, w')
    /\ outbound w'
       = (outbound w
          ++ if telegram_ready telegram_sender request
             then [telegram_call telegram_sender request] else [])%list.
Proof.
  destruct (telegram_ready telegram_sender request) eqn:Hready.
  - destruct (telegram_attempt (requests_api.post_with client) env telegram_sender
                               request w Hready) as (w' & Hs & Ho).
    exists w'. split; [exact Hs|exact Ho].
  - destruct (telegram_refuses_with (requests_api.post_with client) env telegram_sender
                                    request w Hready) as (w' & Hs & Ho).
    exists w'. rewrite app_nil_r. now split.
Qed.

Lemma viber_with_client w :
  exists w',
    ViberSender.send_with (requests_api.post_with client) env viber_sender request w
    = (if viber_ready viber_sender request
       then attempt_outcome (client (outbound w) (viber_call viber_sender request))
       else Returned false, w')
    /\ outbound w'
       = (outbound w
          ++ if viber_ready viber_sender request
             then [viber_call viber_sender request] else [])%list.
Proof.
  destruct (viber_ready viber_sender request) eqn:Hready.
  - destruct (viber_attempt (requests_api.post_with client) env viber_sender
                            request w Hready) as (w' & Hs & Ho).
    exists w'. split; [exact Hs|exact Ho].
  - destruct (viber_refuses_with (requests_api.post_with client) env viber_sender
                                 request w Hready) as (w' & Hs & Ho).
    exists w'. rewrite app_nil_r. now split.
Qed.

Lemma calls_for_cons ch chs :
  calls (ch :: chs)
  = ((if ready ch then call_of ch else []) ++ calls chs)%list.
Proof. reflexivity. Qed.

(** What the registered senders do to the list of calls, channel by channel. *)
Lemma app_attempts_outbound chs :
  forall w,
    outbound (snd (attempts service request chs w))
    = (outbound w ++ calls chs)%list.
Proof.
  subst service. unfold notification_service.
  induction chs as [|ch chs IH]; intros w.
  - subst calls. cbn [attempts snd calls_for flat_map]. now rewrite app_nil_r.
  - rewrite calls_for_cons. subst ready call_of.
    cbn [attempts senders notification_senders].
    destruct ch; cbn [notification_senders channel_ready channel_call app].
    + rewrite IH. reflexivity.
    + rewrite IH. reflexivity.
    + destruct (whatsapp_with_client w) as (w' & Hsend & Hout).
      rewrite Hsend. specialize (IH w').
      destruct (attempts _ request chs w') as [l w''].
      cbn [snd] in *. rewrite IH, Hout, <- app_assoc. reflexivity.
    + destruct (telegram_with_client w) as (w' & Hsend & Hout).
      rewrite Hsend. specialize (IH w').
      destruct (attempts _ request chs w') as [l w''].
      cbn [snd] in *. rewrite IH, Hout, <- app_assoc. reflexivity.
    + destruct (viber_with_client w) as (w' & Hsend & Hout).
      rewrite Hsend. specialize (IH w').
      destruct (attempts _ request chs w') as [l w''].
      cbn [snd] in *. rewrite IH, Hout, <- app_assoc. reflexivity.
Qed.

(** The results of the registered senders when every call made over
    [client] ends the same way: in a success, or in something else. *)
Lemma app_attempts_results (answer : bool) chs :
  (forall before c, succeeded (attempt_outcome (client before c)) = answer) ->
  forall w,
    existsb (fun p => succeeded (snd p))
            (fst (attempts service request chs w))
    = answer && existsb ready chs.
Proof.
  intros Hnet. subst service ready. unfold notification_service.
  induction chs as [|ch chs IH]; intros w.
  - cbn [attempts fst existsb]. now rewrite andb_false_r.
  - cbn [attempts senders notification_senders existsb].
    destruct ch; cbn [notification_senders channel_ready orb].
    + apply IH.
    + apply IH.
    + destruct (whatsapp_with_client w) as (w' & Hsend & _).
      rewrite Hsend. specialize (IH w').
      destruct (attempts _ request chs w') as [l w''].
      cbn [fst snd existsb] in *. rewrite IH.
      destruct (whatsapp_ready whatsapp_sender request);
        [rewrite Hnet|cbn [succeeded]]; destruct answer; reflexivity.
    + destruct (telegram_with_client w) as (w' & Hsend & _).
      rewrite Hsend. specialize (IH w').
      destruct (attempts _ request chs w') as [l w''].
      cbn [fst snd existsb] in *. rewrite IH.
      destruct (telegram_ready telegram_sender request);
        [rewrite Hnet|cbn [succeeded]]; destruct answer; reflexivity.
    + destruct (viber_with_client w) as (w' & Hsend & _).
      rewrite Hsend. specialize (IH w').
      destruct (attempts _ request chs w') as [l w''].
      cbn [fst snd existsb] in *. rewrite IH.
      destruct (viber_ready viber_sender request);
        [rewrite Hnet|cbn [succeeded]]; destruct answer; reflexivity.
Qed.

End AppFacts.

(** X8.  With the registry of app.py over any three sender objects, and
    whatever [requests.post] answers or raises, a dispatch hands to the
    network one call for each occurrence, in the request, of a channel whose
    sender passes its guards, in the order of the list, after the calls made
    before; EMAIL and SMS, which have no sender, and channels whose guards
    refuse the request add nothing. *)
Theorem dispatch_makes_one_call_per_ready_channel :
  forall (client : requests.Client) (env : Env)
         (whatsapp_sender : WhatsAppSender.t) (telegram_sender : TelegramSender.t)
         (viber_sender : ViberSender.t)
         (request : NotificationRequest) (w : World),
  exists (b : bool) (r' : Run World),
    send_notification
      (notification_service (requests_api.post_with client) env
                            whatsapp_sender telegram_sender viber_sender)
      request (mkRun w [])
    = (Returned b, r')
    /\ outbound (world r')
       = (outbound w
          ++ calls_for whatsapp_sender telegram_sender viber_sender request
                       (channels request))%list.
Proof.
  intros client env wa tg vb request w.
  destruct (send_notification_spec
              (notification_service (requests_api.post_with client) env wa tg vb)
              request w)
    as (new & Hrun & _).
  eexists; eexists. split; [exact Hrun|].
  cbn [world]. apply app_attempts_outbound.
Qed.

(** X9.  When no call of [requests.post] is delivered (each one raises, or
    comes back with a 4xx or 5xx status or with a body that does not decode)
    a dispatch with the registry of app.py returns [False], whatever the
    senders and the request. *)
Theorem dispatch_fails_when_nothing_is_delivered :
  forall (client : requests.Client) (env : Env)
         (whatsapp_sender : WhatsAppSender.t) (telegram_sender : TelegramSender.t)
         (viber_sender : ViberSender.t)
         (request : NotificationRequest) (w : World),
    (forall before c r,
        client before c = Returned r -> delivered (requests.responds r) = false) ->
    exists r' : Run World,
      send_notification
        (notification_service (requests_api.post_with client) env
                              whatsapp_sender telegram_sender viber_sender)
        request (mkRun w [])
      = (Returned false, r').
Proof.
  intros client env wa tg vb request w Hnet.
  destruct (send_notification_spec
              (notification_service (requests_api.post_with client) env wa tg vb)
              request w)
    as (new & Hrun & _).
  rewrite (app_attempts_results client env wa tg vb request false) in Hrun.
  - eexists. exact Hrun.
  - intros before c. destruct (client before c) as [r|e] eqn:Hc.
    + cbn [attempt_outcome succeeded]. now rewrite (Hnet before c r Hc).
    + cbn [attempt_outcome].
      destruct (isinstance e except_RequestException); reflexivity.
Qed.

Lemma dispatch_fails_on_a_dead_network :
  (exists r' : Run World,
      send_notification (sample_service sample_env) sample_request
                        (mkRun empty_world [])
      = (Returned false, r'))
  /\ (exists r' : Run World,
      send_notification
        (notification_service
           (requests_api.post_with
              (encoding_headers (fun _ => euro_codec_error)
                                (requests.of_network (network rejecting_env))))
           rejecting_env
           (WhatsAppSender.__init__ sample_config)
           (TelegramSender.__init__ sample_config)
           viber_with_euro_token)
        sample_request (mkRun empty_world [])
      = (Returned false, r')).
Proof.
  split.
  - apply (dispatch_fails_when_nothing_is_delivered
             (requests.of_network (network sample_env)) sample_env).
    intros before c r Hc. discriminate Hc.
  - apply dispatch_fails_when_nothing_is_delivered.
    intros before c r. unfold encoding_headers, requests.of_network.
    destruct (forallb _ _); [|discriminate].
    cbn. intros Hc. injection Hc as <-. reflexivity.
Defined.

(** X10.  When every call of [requests.post] is delivered (a response comes
    back, its status is outside 400..599 and its body decodes), a dispatch
    with the registry of app.py returns [True] exactly when the request names
    a channel whose sender passes its guards: the WhatsApp, Telegram or Viber
    address is in the request and that sender has its credentials. *)
Theorem dispatch_succeeds_iff_a_channel_is_ready :
  forall (client : requests.Client) (env : Env)
         (whatsapp_sender : WhatsAppSender.t) (telegram_sender : TelegramSender.t)
         (viber_sender : ViberSender.t)
         (request : NotificationRequest) (w : World),
    (forall before c,
        exists r, client before c = Returned r
                  /\ delivered (requests.responds r) = true) ->
    exists r' : Run World,
      send_notification
        (notification_service (requests_api.post_with client) env
                              whatsapp_sender telegram_sender viber_sender)
        request (mkRun w [])
      = (Returned (existsb (channel_ready whatsapp_sender telegram_sender viber_sender
                                          request)
                           (channels request)), r').
Proof.
  intros client env wa tg vb request w Hnet.
  destruct (send_notification_spec
              (notification_service (requests_api.post_with client) env wa tg vb)
              request w)
    as (new & Hrun & _).
  rewrite (app_attempts_results client env wa tg vb request true) in Hrun.
  - eexists. exact Hrun.
  - intros before c. destruct (Hnet before c) as (r & Hc & Hd).
    rewrite Hc. cbn [attempt_outcome succeeded]. now rewrite Hd.
Qed.

Lemma dispatch_of_an_email_only_request_fails :
  (exists r' : Run World,
      send_notification (sample_service accepting_env) request_by_email
                        (mkRun empty_world [])
      = (Returned false, r'))
  /\ (exists r' : Run World,
      send_notification (sample_service accepting_env) sample_request
                        (mkRun empty_world [])
      = (Returned true, r')).
Proof.
  split;
    (apply (dispatch_succeeds_iff_a_channel_is_ready
              (requests.of_network (network accepting_env)) accepting_env
              (WhatsAppSender.__init__ sample_config)
              (TelegramSender.__init__ sample_config)
              (ViberSender.__init__ sample_config));
     intros before c; eexists; split; reflexivity).
Defined.

(** ** The messages, when the key is in the table *)

(** X11.  For the three keys of the table, whatever the locale, three
    arguments or more give the English sentence with the first three filled
    in, in order; further arguments are ignored, and nothing is printed. *)
Theorem get_localized_message_fills_the_three_fields :
  forall (env : Env) (locale a b c : string) (more : list string) (w : World),
    messages.get_localized_message env "whatsapp.expiry.message" locale (a :: b :: c :: more) w
    = (Returned ("Dear User, your " ++ a ++ " will expire on " ++ b
                 ++ ". Please take the following action: " ++ c ++ "."), w)
    /\ messages.get_localized_message env "telegram.expiry.message" locale (a :: b :: c :: more) w
       = (Returned ("Alert: Your " ++ a ++ " expires on " ++ b
                    ++ ". Action required: " ++ c ++ "."), w)
    /\ messages.get_localized_message env "viber.expiry.message" locale (a :: b :: c :: more) w
       = (Returned ("Important: " ++ a ++ " expires " ++ b ++ ". Next steps: " ++ c ++ "."), w).
Proof.
  intros env locale a b c more w.
  rewrite !get_localized_message_eq.
  change (template_for "whatsapp.expiry.message")
    with "Dear User, your {} will expire on {}. Please take the following action: {}.".
  change (template_for "telegram.expiry.message")
    with "Alert: Your {} expires on {}. Action required: {}.".
  change (template_for "viber.expiry.message")
    with "Important: {} expires {}. Next steps: {}.".
  rewrite format_whatsapp_template, format_telegram_template, format_viber_template.
  repeat split.
Qed.

(** X12.  For a key of the table and fewer than three arguments, the template
    comes back as it is and one line is printed: the warning of the
    [IndexError] clause, which names the key, the locale asked for and the
    template.  No call is made. *)
Theorem get_localized_message_warns_about_missing_arguments :
  forall (env : Env) (key locale template : string) (args : list string) (w : World),
    dict_get messages.en.MESSAGES key = Some template ->
    length args < 3 ->
    messages.get_localized_message env key locale args w
    = (Returned template,
       mkWorld (stdout w
                ++ [ "Warning: Not enough arguments provided for message key '" ++ key
                     ++ "' in locale '" ++ locale ++ "'. Template: '" ++ template ++ "'" ])
               (outbound w)).
Proof.
  intros env key locale template args w Hfound Hlen.
  rewrite get_localized_message_eq, (template_for_found _ _ Hfound).
  destruct (table_template_needs_three_arguments env template args
              (table_templates _ _ Hfound) Hlen) as [msg Hraise].
  rewrite Hraise. reflexivity.
Qed.

Lemma viber_message_with_one_argument :
  messages.get_localized_message sample_env "viber.expiry.message" "fr" ["Certificate"]
                                 empty_world
  = (Returned "Important: {} expires {}. Next steps: {}.",
     mkWorld [ "Warning: Not enough arguments provided for message key 'viber.expiry.message' in locale 'fr'. Template: 'Important: {} expires {}. Next steps: {}.'" ]
             []).
Proof.
  apply (get_localized_message_warns_about_missing_arguments
           sample_env "viber.expiry.message" "fr"
           "Important: {} expires {}. Next steps: {}." ["Certificate"] empty_world).
  - reflexivity.
  - cbn [length]. lia.
Defined.

(** ** What the Telegram sender prints on an HTTP error *)

(** X13.  The Telegram token is part of the address.  When the call is
    answered with a 4xx status by the address it was sent to, the sender
    returns [False] and prints two lines, the first of which spells out that
    address, bot token included. *)
Theorem telegram_http_error_prints_the_token :
  forall (env : Env) (self : TelegramSender.t) (request : NotificationRequest) (w : World)
         (r : requests.Response) (chat token : string),
    telegram_chat_id request = Some chat -> chat <> EmptyString ->
    TelegramSender.bot_token self = Some token -> token <> EmptyString ->
    network env (outbound w) (telegram_call self request) = requests.responds r ->
    400 <= requests.status_code r < 500 ->
    requests.url r = TelegramSender.api_url self ++ token ++ "/sendMessage" ->
    exists w' : World,
      TelegramSender.send env self request w = (Returned false, w')
      /\ stdout w'
         = (stdout w
            ++ [ ("Failed to send Telegram notification to " ++ chat ++ ": "
                  ++ decimal (requests.status_code r) ++ " Client Error: "
                  ++ requests.reason r ++ " for url: "
                  ++ TelegramSender.api_url self ++ token ++ "/sendMessage")%string;
                 ("Response content: " ++ requests.text r)%string ])%list.
Proof.
  intros env self request w r chat token Hc Hcne Ht Htne Hnet Hstatus Hurl.
  unfold telegram_call in Hnet.
  destruct w as [printed sent]. cbn [outbound stdout] in *.
  unfold TelegramSender.send, TelegramSender.send_with.
  rewrite Hc, Ht, !truthy_nonempty by assumption. cbn [negb].
  run_send. rewrite telegram_message.
  unfold requests_api.post, requests_api.post_with, requests.of_network.
  cbn [outbound stdout]. rewrite Hnet. cbn [requests.outcome_of].
  assert (H4 : Nat.leb 400 (requests.status_code r)
               && Nat.ltb (requests.status_code r) 500 = true).
  { apply andb_true_intro. split; [apply Nat.leb_le|apply Nat.ltb_lt]; lia. }
  rewrite H4, Hurl.
  eexists. split; [reflexivity|].
  cbn [stdout fstr response_content]. unfold response_content.
  now rewrite <- app_assoc.
Qed.

Lemma telegram_prints_the_sample_token_on_a_401 :
  exists w' : World,
    TelegramSender.send unauthorized_env (TelegramSender.__init__ sample_config)
                        sample_request empty_world
    = (Returned false, w')
    /\ stdout w'
       = [ "Failed to send Telegram notification to 4242: 401 Client Error: Unauthorized for url: https://api.telegram.org/bottg-token/sendMessage";
           "Response content: {}" ].
Proof.
  apply (telegram_http_error_prints_the_token
           unauthorized_env (TelegramSender.__init__ sample_config) sample_request empty_world
           (requests.mkResponse 401 "Unauthorized"
              "https://api.telegram.org/bottg-token/sendMessage" "{}" (requests.decodes "{}"))
           "4242" "tg-token");
    first [reflexivity | discriminate | cbn [requests.status_code]; lia].
Defined.

(** ** The rendered date can be read back *)



(** ** config.py and the senders built from it *)

Lemma Config_class_eq (environ : list (string * string)) (w : World) :
  Config_class environ w
  = (Returned (Config_attributes environ),
     mkWorld
       (stdout w
        ++ (if truthy (getenv environ "WHATSAPP_ACCESS_TOKEN") then []
            else ["WARNING: WHATSAPP_ACCESS_TOKEN not set in .env"])
        ++ (if truthy (getenv environ "TELEGRAM_BOT_TOKEN") then []
            else ["WARNING: TELEGRAM_BOT_TOKEN not set in .env"])
        ++ (if truthy (getenv environ "VIBER_AUTH_TOKEN") then []
            else ["WARNING: VIBER_AUTH_TOKEN not set in .env"]))%list
       (outbound w)).
Proof.
  unfold Config_class, warn_if_not.
  cbn [WHATSAPP_ACCESS_TOKEN TELEGRAM_BOT_TOKEN VIBER_AUTH_TOKEN Config_attributes].
  destruct w as [printed sent].
  destruct (truthy (getenv environ "WHATSAPP_ACCESS_TOKEN"));
    destruct (truthy (getenv environ "TELEGRAM_BOT_TOKEN"));
    destruct (truthy (getenv environ "VIBER_AUTH_TOKEN"));
    cbv [negb bind ret print emit World_Stdout stdout outbound];
    cbn [app]; rewrite <- ?app_assoc, ?app_nil_r; reflexivity.
Qed.

(** A sender that passed its guards has sent a call. *)
Lemma telegram_calls_when_ready (env : Env) (self : TelegramSender.t)
      (request : NotificationRequest) (w : World) :
  telegram_ready self request = true ->
  outbound (snd (TelegramSender.send env self request w)) <> outbound w.
Proof.
  intros Hready.
  destruct (telegram_total env self request w) as (w' & Hsend & Hout).
  rewrite Hsend, Hready in *. cbn [snd]. rewrite Hout. intros Heq.
  apply (f_equal (@length _)) in Heq. rewrite length_app in Heq.
  cbn [length] in Heq. lia.
Qed.

Lemma viber_calls_when_ready (env : Env) (self : ViberSender.t)
      (request : NotificationRequest) (w : World) :
  viber_ready self request = true ->
  outbound (snd (ViberSender.send env self request w)) <> outbound w.
Proof.
  intros Hready.
  destruct (viber_total env self request w) as (w' & Hsend & Hout).
  rewrite Hsend, Hready in *. cbn [snd]. rewrite Hout. intros Heq.
  apply (f_equal (@length _)) in Heq. rewrite length_app in Heq.
  cbn [length] in Heq. lia.
Qed.

(** Which warnings the class body printed. *)
Lemma config_warning_lines (wa tg vb : bool) :
  let lines :=
    ((if wa then [] else ["WARNING: WHATSAPP_ACCESS_TOKEN not set in .env"])
     ++ (if tg then [] else ["WARNING: TELEGRAM_BOT_TOKEN not set in .env"])
     ++ (if vb then [] else ["WARNING: VIBER_AUTH_TOKEN not set in .env"]))%list in
  (In "WARNING: WHATSAPP_ACCESS_TOKEN not set in .env" lines <-> wa = false)
  /\ (In "WARNING: TELEGRAM_BOT_TOKEN not set in .env" lines <-> tg = false)
  /\ (In "WARNING: VIBER_AUTH_TOKEN not set in .env" lines <-> vb = false).
Proof.
  destruct wa, tg, vb; cbn [app In];
    repeat split; intros H; try reflexivity; try discriminate;
    try tauto;
    repeat match goal with
           | H : _ \/ _ |- _ => destruct H as [H|H]
           | H : False |- _ => contradiction
           | H : _ = _ |- _ => discriminate H
           end.
Qed.

(** X15.  The class body of [Config] never fails, makes no call and prints at
    most the three warnings.  It prints the Telegram warning exactly when
    the Telegram sender built from the configuration will refuse every
    request without contacting the network, and likewise for Viber; the
    WhatsApp warning implies the same for the WhatsApp sender. *)
Theorem Config_warnings_announce_the_senders_that_refuse :
  forall (environ : list (string * string)) (w : World),
  exists (config : Config) (lines : list string),
    Config_class environ w = (Returned config, mkWorld (stdout w ++ lines) (outbound w))
    /\ length lines <= 3
    /\ (In "WARNING: TELEGRAM_BOT_TOKEN not set in .env" lines <->
        forall env request w0,
          fst (TelegramSender.send env (TelegramSender.__init__ config) request w0)
          = Returned false
          /\ outbound (snd (TelegramSender.send env (TelegramSender.__init__ config) request w0))
             = outbound w0)
    /\ (In "WARNING: VIBER_AUTH_TOKEN not set in .env" lines <->
        forall env request w0,
          fst (ViberSender.send env (ViberSender.__init__ config) request w0)
          = Returned false
          /\ outbound (snd (ViberSender.send env (ViberSender.__init__ config) request w0))
             = outbound w0)
    /\ (In "WARNING: WHATSAPP_ACCESS_TOKEN not set in .env" lines ->
        forall env request w0,
          fst (WhatsAppSender.send env (WhatsAppSender.__init__ config) request w0)
          = Returned false
          /\ outbound (snd (WhatsAppSender.send env (WhatsAppSender.__init__ config) request w0))
             = outbound w0).
Proof.
  intros environ w. rewrite Config_class_eq.
  eexists; eexists. split; [reflexivity|].
  destruct (config_warning_lines (truthy (getenv environ "WHATSAPP_ACCESS_TOKEN"))
                                 (truthy (getenv environ "TELEGRAM_BOT_TOKEN"))
                                 (truthy (getenv environ "VIBER_AUTH_TOKEN")))
    as (Hwa & Htg & Hvb).
  cbv zeta in Hwa, Htg, Hvb.
  split; [|split; [|split]].
  - destruct (truthy (getenv environ "WHATSAPP_ACCESS_TOKEN"));
      destruct (truthy (getenv environ "TELEGRAM_BOT_TOKEN"));
      destruct (truthy (getenv environ "VIBER_AUTH_TOKEN")); cbn [app length]; lia.
  - rewrite Htg. split.
    + intros Htoken env request w0.
      destruct (telegram_guarded env (TelegramSender.__init__ (Config_attributes environ))
                                 request w0) as (w' & Hsend & Hout).
      { right. exact Htoken. }
      rewrite Hsend. now split.
    + intros Hrefuses.
      destruct (truthy (getenv environ "TELEGRAM_BOT_TOKEN")) eqn:Htoken; [|reflexivity].
      exfalso.
      apply (telegram_calls_when_ready
               sample_env (TelegramSender.__init__ (Config_attributes environ))
               sample_request empty_world).
      * unfold telegram_ready. cbn [TelegramSender.__init__ TelegramSender.bot_token
                                      Config_attributes TELEGRAM_BOT_TOKEN].
        rewrite Htoken. reflexivity.
      * apply Hrefuses.
  - rewrite Hvb. split.
    + intros Htoken env request w0.
      destruct (viber_guarded env (ViberSender.__init__ (Config_attributes environ))
                              request w0) as (w' & Hsend & Hout).
      { right. exact Htoken. }
      rewrite Hsend. now split.
    + intros Hrefuses.
      destruct (truthy (getenv environ "VIBER_AUTH_TOKEN")) eqn:Htoken; [|reflexivity].
      exfalso.
      apply (viber_calls_when_ready
               sample_env (ViberSender.__init__ (Config_attributes environ))
               sample_request empty_world).
      * unfold viber_ready. cbn [ViberSender.__init__ ViberSender.auth_token
                                   Config_attributes VIBER_AUTH_TOKEN].
        rewrite Htoken. reflexivity.
      * apply Hrefuses.
  - rewrite Hwa. intros Htoken env request w0.
    destruct (whatsapp_guarded env (WhatsAppSender.__init__ (Config_attributes environ))
                               request w0) as (w' & Hsend & Hout).
    { right. left. exact Htoken. }
    rewrite Hsend. now split.
Qed.

Lemma sample_environ_announces_a_silent_telegram :
  exists (config : Config) (lines : list string),
    Config_class sample_environ empty_world = (Returned config, mkWorld lines [])
    /\ fst (TelegramSender.send accepting_env (TelegramSender.__init__ config)
                                sample_request empty_world)
       = Returned false.
Proof.
  destruct (Config_warnings_announce_the_senders_that_refuse sample_environ empty_world)
    as (config & lines & Hrun & _ & Htg & _).
  exists config, lines. split; [exact Hrun|].
  apply Htg.
  pose proof Hrun as Hlines. vm_compute in Hlines.
  injection Hlines as _ <-. left. reflexivity.
Defined.

(** X16.  Only the three tokens are checked at import.  With the WhatsApp
    access token set and WHATSAPP_FROM_PHONE_NUMBER_ID unset or empty, the
    class body prints nothing about WhatsApp, and yet the WhatsApp sender
    built from the configuration refuses every request without contacting the
    network. *)
Theorem missing_phone_number_id_is_not_announced :
  forall (env : Env) (environ : list (string * string)) (request : NotificationRequest)
         (w w0 : World),
    truthy (getenv environ "WHATSAPP_ACCESS_TOKEN") = true ->
    truthy (getenv environ "WHATSAPP_FROM_PHONE_NUMBER_ID") = false ->
    exists (config : Config) (lines : list string),
      Config_class environ w = (Returned config, mkWorld (stdout w ++ lines) (outbound w))
      /\ (forall line, In line lines ->
                       line = "WARNING: TELEGRAM_BOT_TOKEN not set in .env"
                       \/ line = "WARNING: VIBER_AUTH_TOKEN not set in .env")
      /\ fst (WhatsAppSender.send env (WhatsAppSender.__init__ config) request w0)
         = Returned false
      /\ outbound (snd (WhatsAppSender.send env (WhatsAppSender.__init__ config) request w0))
         = outbound w0.
Proof.
  intros env environ request w w0 Htoken Hid.
  rewrite Config_class_eq, Htoken.
  eexists; eexists. split; [reflexivity|]. split.
  - intros line.
    destruct (truthy (getenv environ "TELEGRAM_BOT_TOKEN"));
      destruct (truthy (getenv environ "VIBER_AUTH_TOKEN"));
      cbn [app In]; intuition auto.
  - destruct (whatsapp_guarded env (WhatsAppSender.__init__ (Config_attributes environ))
                               request w0) as (w' & Hsend & Hout).
    { right. right. exact Hid. }
    rewrite Hsend. now split.
Qed.

Lemma sample_environ_hides_the_missing_phone_number_id :
  exists (config : Config) (lines : list string),
    Config_class sample_environ empty_world = (Returned config, mkWorld lines [])
    /\ (forall line, In line lines ->
                     line = "WARNING: TELEGRAM_BOT_TOKEN not set in .env"
                     \/ line = "WARNING: VIBER_AUTH_TOKEN not set in .env")
    /\ fst (WhatsAppSender.send accepting_env (WhatsAppSender.__init__ config)
                                sample_request empty_world)
       = Returned false
    /\ outbound (snd (WhatsAppSender.send accepting_env (WhatsAppSender.__init__ config)
                                          sample_request empty_world))
       = [].
Proof.
  apply (missing_phone_number_id_is_not_announced
           accepting_env sample_environ sample_request empty_world empty_world);
    reflexivity.
Defined.
